(** * softwarecollections: forms and the [0002_add_field_repo_slug] migration

    A shallow embedding of
    - [softwarecollections/scls/forms.py] (the ModelForm subclasses), and
    - [softwarecollections/scls/migrations/0002_add_field_repo_slug.py]
    together with the properties stated about them.

    Python values that matter are embedded directly: strings as [string],
    dictionaries as [gmap string _], lists and tuples as [list], exceptions
    as the constructors of [exc].  Calls that leave the two source files
    (the Copr proxy, the file system, the ORM, methods of the model class)
    are operations of an interface [Externals]; every such call is recorded
    in a call log, so that statements about which calls a form method makes
    can be read off the log. *)

From stdpp Require Import gmap strings list fin_maps.
From Stdlib Require Import ZArith Ascii String Lia.

Open Scope string_scope.
Open Scope list_scope.
Open Scope Z_scope.

(** ** Python exceptions and results *)

Inductive exc : Type :=
| KeyError (key : string)
| IndexError
| TypeError
| AttributeError
| FieldError (msg : string)
| ValueError (msg : string)
| DoesNotExist
| MultipleObjectsReturned
| OSError (msg : string)
| DatabaseError (msg : string)
| IntegrityError (msg : string)
| ExternalError (msg : string).

Inductive result (A : Type) : Type :=
| Ok (a : A)
| Raise (e : exc).

Arguments Ok {A} a.
Arguments Raise {A} e.

(** ** The South database layer, as far as the migration uses it *)

Module South.

(** A Django model field as the migration builds it:
    [self.gf('django.db.models.fields.SlugField')(max_length=150, default='')]. *)
Record field : Type := mk_field {
  field_class : string;
  max_length : option Z;
  default : option string
}.

Definition gf (cls : string) (max_len : option Z) (dflt : option string) : field :=
  mk_field cls max_len dflt.

(** A table: its columns in declaration order and its rows; a row maps a
    column name to the stored value. *)
Record table : Type := mk_table {
  columns : list (string * field);
  rows : list (gmap string string)
}.

Abbreviation database := (gmap string table).

Definition column_names (t : table) : list string := (columns t).*1.

Definition drop_default (f : field) : field :=
  mk_field (field_class f) (max_length f) None.

(** [db.add_column(table_name, name, field, keep_default)]:
    ALTER TABLE ... ADD COLUMN with the field's default, which fills the
    rows that exist; with [keep_default=False] the default is then dropped
    from the column. *)
Definition add_column (table_name name : string) (f : field)
    (keep_default : bool) (db : database) : result database :=
  match db !! table_name with
  | None => Raise (DatabaseError "no such table")
  | Some t =>
      if bool_decide (name ∈ column_names t)
      then Raise (DatabaseError "duplicate column")
      else
        let filled :=
          match default f with
          | Some d => (λ r : gmap string string, <[name := d]> r) <$> rows t
          | None => rows t
          end in
        let col := if keep_default then f else drop_default f in
        Ok (<[table_name := mk_table (columns t ++ [(name, col)]) filled]> db)
  end.

(** [db.delete_column(table_name, name)]. *)
Definition delete_column (table_name name : string) (db : database)
    : result database :=
  match db !! table_name with
  | None => Raise (DatabaseError "no such table")
  | Some t =>
      if bool_decide (name ∈ column_names t)
      then
        Ok (<[table_name :=
               mk_table (filter (λ c : string * field, c.1 ≠ name) (columns t))
                        ((λ r : gmap string string, delete name r) <$> rows t)]> db)
      else Raise (DatabaseError "no such column")
  end.

(** The schema of a database: the columns of every table, without rows. *)
Definition schema_of (db : database) : gmap string (list (string * field)) :=
  columns <$> db.

(** Rows only have values for columns of their table. *)
Definition table_wf (t : table) : Prop :=
  Forall (λ r : gmap string string, ∀ c, c ∉ column_names t → r !! c = None) (rows t).

End South.

(** ** Migration 0002: adding field [Repo.slug] *)

Module Migration.
Import South.

Definition forwards (db : database) : result database :=
  add_column "scls_repo" "slug"
    (gf "django.db.models.fields.SlugField" (Some 150) (Some ""))
    false db.

Definition backwards (db : database) : result database :=
  delete_column "scls_repo" "slug" db.

End Migration.

(** ** The frozen model snapshot of the migration ([Migration.models]) *)

Module Frozen.

(** One entry of a frozen model: [(field class, positional args, kwargs)];
    South stores every keyword value as the text of a Python expression. *)
Record frozen_field : Type := mk_frozen_field {
  ff_class : string;
  ff_args : list string;
  ff_kwargs : gmap string string
}.

(** A frozen model: its ['Meta'] dictionary and its fields by name. *)
Record frozen_model : Type := mk_frozen_model {
  Meta : gmap string string;
  model_fields : gmap string frozen_field
}.

Definition fld (cls : string) (kwargs : list (string * string)) : frozen_field :=
  mk_frozen_field cls [] (list_to_map kwargs).

Definition model (meta : list (string * string))
    (fs : list (string * frozen_field)) : frozen_model :=
  mk_frozen_model (list_to_map meta) (list_to_map fs).

Definition AutoField := "django.db.models.fields.AutoField".
Definition CharField := "django.db.models.fields.CharField".
Definition TextField := "django.db.models.fields.TextField".
Definition SlugField := "django.db.models.fields.SlugField".
Definition EmailField := "django.db.models.fields.EmailField".
Definition BooleanField := "django.db.models.fields.BooleanField".
Definition IntegerField := "django.db.models.fields.IntegerField".
Definition SmallIntegerField := "django.db.models.fields.SmallIntegerField".
Definition DateTimeField := "django.db.models.fields.DateTimeField".
Definition ForeignKey := "django.db.models.fields.related.ForeignKey".
Definition ManyToManyField := "django.db.models.fields.related.ManyToManyField".

Definition auth_group : frozen_model :=
  model [("object_name", "Group")]
    [("id", fld AutoField [("primary_key", "True")]);
     ("name", fld CharField [("unique", "True"); ("max_length", "80")]);
     ("permissions", fld ManyToManyField
        [("symmetrical", "False"); ("blank", "True"); ("to", "orm['auth.Permission']")])].

Definition auth_permission : frozen_model :=
  model [("object_name", "Permission");
         ("unique_together", "(('content_type', 'codename'),)");
         ("ordering", "('content_type__app_label', 'content_type__model', 'codename')")]
    [("codename", fld CharField [("max_length", "100")]);
     ("content_type", fld ForeignKey [("to", "orm['contenttypes.ContentType']")]);
     ("id", fld AutoField [("primary_key", "True")]);
     ("name", fld CharField [("max_length", "50")])].

Definition auth_user : frozen_model :=
  model [("object_name", "User")]
    [("date_joined", fld DateTimeField [("default", "datetime.datetime.now")]);
     ("email", fld EmailField [("max_length", "75"); ("blank", "True")]);
     ("first_name", fld CharField [("max_length", "30"); ("blank", "True")]);
     ("groups", fld ManyToManyField
        [("symmetrical", "False"); ("blank", "True");
         ("related_name", "'user_set'"); ("to", "orm['auth.Group']")]);
     ("id", fld AutoField [("primary_key", "True")]);
     ("is_active", fld BooleanField [("default", "True")]);
     ("is_staff", fld BooleanField [("default", "False")]);
     ("is_superuser", fld BooleanField [("default", "False")]);
     ("last_login", fld DateTimeField [("default", "datetime.datetime.now")]);
     ("last_name", fld CharField [("max_length", "30"); ("blank", "True")]);
     ("password", fld CharField [("max_length", "128")]);
     ("user_permissions", fld ManyToManyField
        [("symmetrical", "False"); ("blank", "True");
         ("related_name", "'user_set'"); ("to", "orm['auth.Permission']")]);
     ("username", fld CharField [("unique", "True"); ("max_length", "30")])].

Definition contenttypes_contenttype : frozen_model :=
  model [("object_name", "ContentType");
         ("unique_together", "(('app_label', 'model'),)");
         ("ordering", "('name',)");
         ("db_table", "'django_content_type'")]
    [("app_label", fld CharField [("max_length", "100")]);
     ("id", fld AutoField [("primary_key", "True")]);
     ("model", fld CharField [("max_length", "100")]);
     ("name", fld CharField [("max_length", "100")])].

Definition scls_repo : frozen_model :=
  model [("object_name", "Repo"); ("unique_together", "(('scl', 'name'),)")]
    [("auto_sync", fld BooleanField [("default", "True")]);
     ("copr_url", fld CharField [("max_length", "200")]);
     ("create_date", fld DateTimeField [("blank", "True"); ("auto_now_add", "True")]);
     ("download_count", fld IntegerField [("default", "0")]);
     ("enabled", fld BooleanField [("default", "True")]);
     ("id", fld AutoField [("primary_key", "True")]);
     ("last_sync_date", fld DateTimeField [("null", "True")]);
     ("name", fld CharField [("max_length", "50")]);
     ("need_sync", fld BooleanField [("default", "True")]);
     ("scl", fld ForeignKey
        [("related_name", "'repos'"); ("to", "orm['scls.SoftwareCollection']")]);
     ("slug", fld SlugField [("max_length", "150")])].

Definition scls_score : frozen_model :=
  model [("object_name", "Score"); ("unique_together", "(('scl', 'user'),)")]
    [("id", fld AutoField [("primary_key", "True")]);
     ("scl", fld ForeignKey
        [("related_name", "'scores'"); ("to", "orm['scls.SoftwareCollection']")]);
     ("score", fld SmallIntegerField []);
     ("user", fld ForeignKey [("to", "orm['auth.User']")])].

Definition scls_softwarecollection : frozen_model :=
  model [("object_name", "SoftwareCollection");
         ("unique_together", "(('maintainer', 'name'),)")]
    [("approval_req", fld BooleanField [("default", "False")]);
     ("approved", fld BooleanField [("default", "False")]);
     ("auto_sync", fld BooleanField [("default", "True")]);
     ("collaborators", fld ManyToManyField
        [("symmetrical", "False"); ("blank", "True");
         ("related_name", "'softwarecollection_set'"); ("to", "orm['auth.User']")]);
     ("copr_name", fld CharField [("max_length", "200")]);
     ("copr_username", fld CharField [("max_length", "100")]);
     ("create_date", fld DateTimeField [("blank", "True"); ("auto_now_add", "True")]);
     ("description", fld TextField []);
     ("download_count", fld IntegerField [("default", "0")]);
     ("id", fld AutoField [("primary_key", "True")]);
     ("instructions", fld TextField []);
     ("last_sync_date", fld DateTimeField [("null", "True")]);
     ("maintainer", fld ForeignKey
        [("related_name", "'maintained_softwarecollection_set'");
         ("to", "orm['auth.User']")]);
     ("name", fld SlugField [("db_index", "False"); ("max_length", "100")]);
     ("need_sync", fld BooleanField [("default", "True")]);
     ("policy", fld TextField []);
     ("score", fld SmallIntegerField [("null", "True")]);
     ("score_count", fld IntegerField [("default", "0")]);
     ("slug", fld SlugField [("max_length", "150")]);
     ("title", fld CharField [("max_length", "200")])].

Definition models : gmap string frozen_model :=
  list_to_map
    [("auth.group", auth_group);
     ("auth.permission", auth_permission);
     ("auth.user", auth_user);
     ("contenttypes.contenttype", contenttypes_contenttype);
     ("scls.repo", scls_repo);
     ("scls.score", scls_score);
     ("scls.softwarecollection", scls_softwarecollection)].

Definition complete_apps : list string := ["scls"].

(** *** Reading the frozen options back

    The value of ['unique_together'] is the text of a tuple of tuples of
    quoted names, e.g. ["(('scl', 'name'),)"].  [scan] walks the text once:
    [depth] counts open parentheses, [quoted] holds the name being read
    while inside quotes, [cur] the names of the inner tuple read so far. *)
Fixpoint scan (s : string) (depth : nat) (quoted : option string)
    (cur : list string) (acc : list (list string)) : list (list string) :=
  match s with
  | EmptyString => acc
  | String c rest =>
      match quoted with
      | Some q =>
          if Ascii.eqb c "'"%char
          then scan rest depth None (cur ++ [q]) acc
          else scan rest depth (Some (q +:+ String c EmptyString)) cur acc
      | None =>
          if Ascii.eqb c "'"%char then scan rest depth (Some "") cur acc
          else if Ascii.eqb c "("%char then
            scan rest (S depth) None (if Nat.eqb depth 1 then [] else cur) acc
          else if Ascii.eqb c ")"%char then
            scan rest (Nat.pred depth) None cur
                 (if Nat.eqb depth 2 then acc ++ [cur] else acc)
          else scan rest depth None cur acc
      end
  end.

Definition eval_tuple_of_tuples (s : string) : list (list string) :=
  scan s 0 None [] [].

Definition unique_together (m : frozen_model) : list (list string) :=
  match Meta m !! "unique_together" with
  | Some s => eval_tuple_of_tuples s
  | None => []
  end.

(** The fields that declare a default, with the default's text. *)
Definition defaults (m : frozen_model) : gmap string string :=
  omap (λ f : frozen_field, ff_kwargs f !! "default") (model_fields m).

Definition has_field (m : frozen_model) (name : string) : bool :=
  bool_decide (is_Some (model_fields m !! name)).

End Frozen.

(** ** Stored records under the declared options *)

Module Store.
Import Frozen.

(** A stored record: the text of each column's value, by field name. *)
Abbreviation row := (gmap string string).

Definition project (ks : list string) (r : row) : list (option string) :=
  (λ k, r !! k) <$> ks.

(** Modelled from the spec: the enforcement of the declared field options.
    [models.py] and the initial migration, which create the tables with
    their unique constraints and defaults, are not among the sources; what
    is declared is taken from the frozen snapshot [Frozen.models].  A
    record conflicts with the stored ones when, for some declared
    [unique_together] tuple, a stored record has the same values. *)
Definition conflicts (m : frozen_model) (r : row) (others : list row) : bool :=
  bool_decide
    (Exists (λ ks, project ks r ∈ project ks <$> others) (unique_together m)).

(** Modelled from the spec: creating a record.  Fields that are not given
    take their declared default; a conflicting record is refused. *)
Definition create (m : frozen_model) (given : row) (stored : list row)
    : result (list row) :=
  let r := given ∪ defaults m in
  if conflicts m r stored
  then Raise (IntegrityError "columns are not unique")
  else Ok (stored ++ [r]).

(** Modelled from the spec: changing the record at position [i]; the
    changed record is checked against all the other records. *)
Definition update (m : frozen_model) (i : nat) (changes : row)
    (stored : list row) : result (list row) :=
  match stored !! i with
  | None => Raise DoesNotExist
  | Some old =>
      let r := changes ∪ old in
      if conflicts m r (delete i stored)
      then Raise (IntegrityError "columns are not unique")
      else Ok (<[i := r]> stored)
  end.

Definition remove (i : nat) (stored : list row) : result (list row) :=
  Ok (delete i stored).

Inductive op : Type :=
| Create (given : row)
| Update (i : nat) (changes : row)
| Remove (i : nat).

Definition apply (m : frozen_model) (o : op) (stored : list row)
    : result (list row) :=
  match o with
  | Create given => create m given stored
  | Update i changes => update m i changes stored
  | Remove i => remove i stored
  end.

(** A refused operation leaves the stored records as they are. *)
Fixpoint run (m : frozen_model) (ops : list op) (stored : list row) : list row :=
  match ops with
  | [] => stored
  | o :: ops' =>
      match apply m o stored with
      | Ok stored' => run m ops' stored'
      | Raise _ => run m ops' stored
      end
  end.

Definition unique_ok (m : frozen_model) (stored : list row) : Prop :=
  Forall (λ ks, NoDup (project ks <$> stored)) (unique_together m).

End Store.

(** ** Model instances *)

Module Models.

(** [auth.User], with the attributes the forms read. *)
Record User : Type := mk_User {
  user_id : Z;
  username : string;
  first_name : string;
  last_name : string
}.

(** Model instances compare by primary key. *)
Definition User_eqb (u v : User) : bool := Z.eqb (user_id u) (user_id v).

Definition get_username (u : User) : string := username u.

(** [scls.SoftwareCollection]: one attribute per field of the frozen model. *)
Record SoftwareCollection : Type := mk_SoftwareCollection {
  scl_id : option Z;
  slug : string;
  name : string;
  title : string;
  description : string;
  instructions : string;
  policy : string;
  copr_username : string;
  copr_name : string;
  maintainer : User;
  collaborators : list User;
  auto_sync : bool;
  need_sync : bool;
  approved : bool;
  approval_req : bool;
  download_count : Z;
  score : option Z;
  score_count : Z;
  create_date : option string;
  last_sync_date : option string
}.

(** Attribute assignments [obj.maintainer = ...], [obj.slug = ...],
    [obj.title = ...]. *)
Definition set_maintainer (o : SoftwareCollection) (u : User) : SoftwareCollection :=
  mk_SoftwareCollection (scl_id o) (slug o) (name o) (title o) (description o)
    (instructions o) (policy o) (copr_username o) (copr_name o) u
    (collaborators o) (auto_sync o) (need_sync o) (approved o) (approval_req o)
    (download_count o) (score o) (score_count o) (create_date o) (last_sync_date o).

Definition set_slug (o : SoftwareCollection) (s : string) : SoftwareCollection :=
  mk_SoftwareCollection (scl_id o) s (name o) (title o) (description o)
    (instructions o) (policy o) (copr_username o) (copr_name o) (maintainer o)
    (collaborators o) (auto_sync o) (need_sync o) (approved o) (approval_req o)
    (download_count o) (score o) (score_count o) (create_date o) (last_sync_date o).

Definition set_title (o : SoftwareCollection) (s : string) : SoftwareCollection :=
  mk_SoftwareCollection (scl_id o) (slug o) (name o) s (description o)
    (instructions o) (policy o) (copr_username o) (copr_name o) (maintainer o)
    (collaborators o) (auto_sync o) (need_sync o) (approved o) (approval_req o)
    (download_count o) (score o) (score_count o) (create_date o) (last_sync_date o).

End Models.

(** ** Python values held in the forms' dictionaries *)

Module Py.
Import Models.

#[warnings="-register-all"]
Inductive value : Type :=
| VNone
| VBool (b : bool)
| VInt (z : Z)
| VStr (s : string)
| VUser (u : User)
| VList (l : list value).

(** Truth value of an object in a condition ([if add:]). *)
Definition truthy (v : value) : bool :=
  match v with
  | VNone => false
  | VBool b => b
  | VInt z => negb (Z.eqb z 0)
  | VStr s => negb (String.eqb s "")
  | VUser _ => true
  | VList l => match l with [] => false | _ => true end
  end.

(** [list(v)]: a list stays a list, a string gives its characters, other
    values are not iterable. *)
Definition py_list (v : value) : result (list value) :=
  match v with
  | VList l => Ok l
  | VStr s => Ok ((λ c, VStr (String c EmptyString)) <$> list_ascii_of_string s)
  | _ => Raise TypeError
  end.

(** [d[key]]. *)
Definition getitem {A} (d : gmap string A) (key : string) : result A :=
  match d !! key with
  | Some v => Ok v
  | None => Raise (KeyError key)
  end.

(** [d.pop(key)]: the value and the dictionary without the key. *)
Definition pop {A} (d : gmap string A) (key : string) : result (A * gmap string A) :=
  match d !! key with
  | Some v => Ok (v, delete key d)
  | None => Raise (KeyError key)
  end.





(** ['{}/{}'.format(a, b)] on two strings. *)
Definition format_slash (a b : string) : string := a +:+ "/" +:+ b.

Definition is_lower (c : ascii) : bool :=
  (Nat.leb 97 (nat_of_ascii c) && Nat.leb (nat_of_ascii c) 122)%bool.

Definition is_upper (c : ascii) : bool :=
  (Nat.leb 65 (nat_of_ascii c) && Nat.leb (nat_of_ascii c) 90)%bool.

Definition upper (c : ascii) : ascii :=
  if is_lower c then ascii_of_nat (nat_of_ascii c - 32) else c.

Definition lower (c : ascii) : ascii :=
  if is_upper c then ascii_of_nat (nat_of_ascii c + 32) else c.

Fixpoint map_string (f : ascii → ascii) (s : string) : string :=
  match s with
  | EmptyString => EmptyString
  | String c rest => String (f c) (map_string f rest)
  end.

(** [s.replace('_', ' ')]. *)
Definition replace_underscores (s : string) : string :=
  map_string (λ c, if Ascii.eqb c "_"%char then " "%char else c) s.

(** [s.capitalize()] on ASCII text. *)
Definition capitalize (s : string) : string :=
  match s with
  | EmptyString => EmptyString
  | String c rest => String (upper c) (map_string lower rest)
  end.

(** [django.forms.forms.pretty_name]: ['first_name'] becomes ['First name']. *)
Definition pretty_name (s : string) : string :=
  if String.eqb s "" then "" else capitalize (replace_underscores s).

End Py.

(** ** Forms: data *)

Module FormData.
Import Models Py.

(** [request]: the merged GET/POST dictionary and the logged-in user. *)
Record Request : Type := mk_Request {
  REQUEST : gmap string string;
  user : User
}.

(** A form field, reduced to what the forms assign:
    [field.widget.choices] and [field.widget.attrs]. *)
Record Field : Type := mk_Field {
  widget_choices : list (value * string);
  widget_attrs : gmap string string
}.

Definition set_choices (f : Field) (cs : list (value * string)) : Field :=
  mk_Field cs (widget_attrs f).

Definition set_attr (f : Field) (k v : string) : Field :=
  mk_Field (widget_choices f) (<[k := v]> (widget_attrs f)).

(** The state of a ModelForm instance ([self]). *)
Record ModelForm : Type := mk_ModelForm {
  instance : SoftwareCollection;
  initial : gmap string value;
  fields : gmap string Field;
  cleaned_data : gmap string value;
  errors : gmap string (list string)
}.

Definition set_initial (self : ModelForm) (k : string) (v : value) : ModelForm :=
  mk_ModelForm (instance self) (<[k := v]> (initial self))
               (fields self) (cleaned_data self) (errors self).

Definition set_fields (self : ModelForm) (fs : gmap string Field) : ModelForm :=
  mk_ModelForm (instance self) (initial self) fs (cleaned_data self) (errors self).

Definition set_cleaned_data (self : ModelForm) (cd : gmap string value) : ModelForm :=
  mk_ModelForm (instance self) (initial self) (fields self) cd (errors self).

Definition set_error (self : ModelForm) (k : string) (msgs : list string) : ModelForm :=
  mk_ModelForm (instance self) (initial self) (fields self)
               (cleaned_data self) (<[k := msgs]> (errors self)).

(** [CreateForm] and [UpdateForm] also keep the request ([self.request]). *)
Record RequestForm : Type := mk_RequestForm {
  request : Request;
  form : ModelForm
}.

(** The keyword arguments a view passes to a form constructor. *)
Record Kwargs : Type := mk_Kwargs {
  kw_data : option (gmap string string);
  kw_instance : option SoftwareCollection;
  kw_initial : gmap string value
}.

(** The class-level declarations of a ModelForm: the options of its inner
    [Meta] class and the fields declared in the class body. *)
Record FormClass : Type := mk_FormClass {
  Meta_model : string;
  Meta_fields : list string;
  Meta_widgets : list string;
  declared_fields : list string
}.

(** The calls a form method makes outside [forms.py]. *)
Inductive call : Type :=
| Call_ModelForm_init
| Call_ModelForm_clean
| Call_ModelForm_save (commit : bool)
| Call_coprnames (copr_username : string)
| Call_tags_edit_string (obj : SoftwareCollection)
| Call_sync_copr_texts (obj : SoftwareCollection)
| Call_get_repos_root (obj : SoftwareCollection)
| Call_makedirs (path : string)
| Call_save (obj : SoftwareCollection)
| Call_sync_copr_repos (obj : SoftwareCollection)
| Call_add_auto_tags (obj : SoftwareCollection)
| Call_collaborators_add (obj : SoftwareCollection) (u : User)
| Call_set_tags (obj : SoftwareCollection) (tags : value).

End FormData.

(** ** The interface to everything outside [forms.py] *)

Module Env.
Import Models Py FormData.

(** [W] is the state of the outside world (database, file system, the Copr
    service).  An operation takes the world, returns a value or raises, and
    leaves a new world. *)
Class Externals (W : Type) : Type := {
  (** [forms.ModelForm]: the superclass methods *)
  ModelForm_init : FormClass → Kwargs → W → result ModelForm * W;
  ModelForm_clean : ModelForm → W → result (gmap string value) * W;
  ModelForm_save : ModelForm → bool → W → result SoftwareCollection * W;
  (** [softwarecollections.copr.CoprProxy] *)
  coprnames : string → W → result (list string) * W;
  (** methods of [SoftwareCollection] *)
  tags_edit_string : SoftwareCollection → W → result string * W;
  sync_copr_texts : SoftwareCollection → W → result SoftwareCollection * W;
  get_repos_root : SoftwareCollection → W → result string * W;
  Model_save : SoftwareCollection → W → result SoftwareCollection * W;
  sync_copr_repos : SoftwareCollection → W → result SoftwareCollection * W;
  add_auto_tags : SoftwareCollection → W → result SoftwareCollection * W;
  collaborators_add :
    SoftwareCollection → User → W → result SoftwareCollection * W;
  set_tags : SoftwareCollection → value → W → result SoftwareCollection * W;
  (** [os.makedirs] *)
  makedirs : string → W → result unit * W;
  (** the rows the ORM managers see *)
  User_objects : W → list User;
  SoftwareCollection_objects : W → list SoftwareCollection
}.

End Env.

(** ** Form methods as computations over the world and the call log *)

Module Run.
Import Models Py FormData Env.

Section Monad.
Context {W : Type}.

(** A computation runs on the world and the log of calls made so far; an
    exception leaves the world and the log as they were when it was raised. *)
Definition M (A : Type) : Type := W * list call → result A * (W * list call).

Definition ret {A} (a : A) : M A := λ s, (Ok a, s).

Definition bind {A B} (m : M A) (k : A → M B) : M B :=
  λ s, match m s with
       | (Ok a, s') => k a s'
       | (Raise e, s') => (Raise e, s')
       end.

(** A pure step that may raise ([d[key]], [list(v)]). *)
Definition lift {A} (r : result A) : M A := λ s, (r, s).

(** A call to the outside: it is logged, then run on the world. *)
Definition external {A} (c : call) (f : W → result A * W) : M A :=
  λ s, let (r, w') := f s.1 in (r, (w', s.2 ++ [c])).

(** Reading the world without changing it. *)
Definition query {A} (f : W → result A) : M A := λ s, (f s.1, s).

(** [try: body  except: handler] with a bare [except], which catches every
    exception. *)
Definition try_except {A} (body handler : M A) : M A :=
  λ s, match body s with
       | (Ok a, s') => (Ok a, s')
       | (Raise _, s') => handler s'
       end.

End Monad.

Notation "'let*' x ':=' m 'in' k" := (bind m (λ x, k))
  (at level 10, x name, m at level 100, k at level 200,
   format "'[v' 'let*'  x  :=  m  'in'  '/' k ']'").

End Run.

(** ** [forms.py] *)

Module Forms.
Import Models Py FormData Env Run.

(** *** Class declarations *)

Definition CreateForm : FormClass :=
  mk_FormClass "SoftwareCollection"
    ["copr_username"; "copr_name"; "maintainer"; "name"; "policy"]
    ["name"; "copr_username"; "copr_name"; "maintainer"; "policy"]
    [].

Definition UpdateForm : FormClass :=
  mk_FormClass "SoftwareCollection"
    ["title"; "description"; "instructions"; "policy"; "copr_username";
     "copr_name"; "auto_sync"]
    ["title"; "copr_name"; "copr_username"; "description"; "instructions";
     "policy"; "auto_sync"]
    ["tags"].


Definition RateForm : FormClass :=
  mk_FormClass "Score" ["score"] ["score"] [].

(** The frozen model a form class is bound to, found by its object name. *)
Definition model_of (object_name : string) : option Frozen.frozen_model :=
  snd <$> head (filter
    (λ kv : string * Frozen.frozen_model,
       Frozen.Meta kv.2 !! "object_name" = Some object_name)
    (map_to_list Frozen.models)).

(** The field names a form class exposes, as the ModelForm metaclass builds
    them: the model fields named in [Meta.fields], in that order, then the
    fields declared in the class body.  A name in [Meta.fields] that is
    neither a model field nor declared is a [FieldError]. *)
Definition base_fields (cls : FormClass) : result (list string) :=
  match model_of (Meta_model cls) with
  | None => Raise (FieldError "unknown model")
  | Some m =>
      if forallb (λ f, Frozen.has_field m f || bool_decide (f ∈ declared_fields cls))
                 (Meta_fields cls)
      then Ok (Meta_fields cls ++
               filter (λ f, f ∉ Meta_fields cls) (declared_fields cls))
      else Raise (FieldError "Unknown field(s) specified")
  end.

(** *** PolicyRadioRenderer *)

(** One radio input of the widget being rendered: the HTML of its
    [<input>] tag ([w.tag()]) and its label ([w.choice_label]). *)
Record RadioInput : Type := mk_RadioInput {
  tag : string;
  choice_label : string
}.

(** The double quote and the line feed. *)
Definition dq : string := String "034"%char EmptyString.
Definition nl : string := String "010"%char EmptyString.

Definition render_header : string :=
  "<div class=" +:+ dq +:+ "panel panel-default" +:+ dq +:+
  "><table class=" +:+ dq +:+ "table" +:+ dq +:+ "><tbody>".

(** [row.format(a, b)]. *)
Definition render_row (a b : string) : string :=
  "<tr><td class=" +:+ dq +:+ "col-md-1 text-center td-gray" +:+ dq +:+ ">" +:+
  a +:+ "</td><td>" +:+ b +:+ "</td></tr>".

Definition render_footer : string := "</tbody></table></div>".

(** [sep.join(l)]. *)
Fixpoint join (sep : string) (l : list string) : string :=
  match l with
  | [] => ""
  | [x] => x
  | x :: rest => x +:+ sep +:+ join sep rest
  end.

(** [PolicyRadioRenderer.render]; [mark_safe] does not change the text. *)
Definition PolicyRadioRenderer_render (self : list RadioInput) : string :=
  render_header +:+
  join nl ((λ w, render_row (tag w) (choice_label w)) <$> self) +:+
  render_footer.

Section Methods.
Context {W : Type} `{Externals W}.

(** *** ORM queries *)

(** [get_user_model().objects.get(username=...)]. *)
Definition User_objects_get (uname : value) (w : W) : result User :=
  match uname with
  | VStr s =>
      match filter (λ u, username u = s) (User_objects w) with
      | [] => Raise DoesNotExist
      | [u] => Ok u
      | _ => Raise MultipleObjectsReturned
      end
  | _ => Raise DoesNotExist
  end.

Definition id_key (o : SoftwareCollection) : Z :=
  match scl_id o with Some i => i | None => 0 end.

Fixpoint insert_by_id_desc (o : SoftwareCollection) (l : list SoftwareCollection)
    : list SoftwareCollection :=
  match l with
  | [] => [o]
  | x :: l' =>
      if Z.leb (id_key x) (id_key o) then o :: l
      else x :: insert_by_id_desc o l'
  end.

(** [.order_by('-id')]. *)
Definition order_by_id_desc (l : list SoftwareCollection) : list SoftwareCollection :=
  foldr insert_by_id_desc [] l.

(** [SoftwareCollection.objects.filter(maintainer=u).order_by('-id')[0]]. *)
Definition latest_maintained_by (u : User) (w : W) : result SoftwareCollection :=
  match order_by_id_desc
          (filter (λ o, User_eqb (maintainer o) u = true)
                  (SoftwareCollection_objects w)) with
  | [] => Raise IndexError
  | o :: _ => Ok o
  end.

(** [tuple((name, name) for name in coprnames)]. *)
Definition copr_name_choices (names : list string) : list (value * string) :=
  (λ n, (VStr n, n)) <$> names.

(** [l.append(x)]. *)
Definition append (l x : value) : result value :=
  match l with
  | VList vs => Ok (VList (vs ++ [x]))
  | _ => Raise AttributeError
  end.

(** *** CreateForm *)

(** Lines 37-45 of [CreateForm.__init__]: the Copr user name comes from the
    request, else from the maintainer's latest collection, else it is the
    user's own name. *)
Definition resolve_copr_username (req : Request) : M string :=
  match REQUEST req !! "copr_username" with
  | Some v => ret v
  | None =>
      try_except
        (let* o := query (latest_maintained_by (user req)) in
         ret (copr_username o))
        (ret (get_username (user req)))
  end.

(** [self.request = request] comes first in the source; the superclass
    constructor does not know the attribute, so the request is kept beside
    the state it builds. *)
Definition CreateForm_init (req : Request) (kwargs : Kwargs) : M RequestForm :=
  let* self := external Call_ModelForm_init (ModelForm_init CreateForm kwargs) in
  let* copr_username := resolve_copr_username req in
  let self := set_initial self "copr_username" (VStr copr_username) in
  let self := set_initial self "maintainer" (VUser (user req)) in
  let* names :=
    if truthy (VStr copr_username)
    then external (Call_coprnames copr_username) (coprnames copr_username)
    else ret [] in
  let choices := copr_name_choices names in
  let* f := lift (getitem (fields self) "copr_name") in
  let self := set_fields self (<["copr_name" := set_choices f choices]> (fields self)) in
  let* f := lift (getitem (fields self) "copr_name") in
  let self :=
    set_fields self (<["copr_name" := set_attr f "class" "form-control"]> (fields self)) in
  ret (mk_RequestForm req self).

Definition CreateForm_save (self : RequestForm) (commit : bool)
    : M SoftwareCollection :=
  let* obj := external (Call_ModelForm_save false) (ModelForm_save (form self) false) in
  let obj := set_maintainer obj (user (request self)) in
  let obj := set_slug obj (format_slash (username (maintainer obj)) (name obj)) in
  let obj := set_title obj (pretty_name (name obj)) in
  let* obj := external (Call_sync_copr_texts obj) (sync_copr_texts obj) in
  let* root := external (Call_get_repos_root obj) (get_repos_root obj) in
  let* _ := external (Call_makedirs root) (makedirs root) in
  let* obj := external (Call_save obj) (Model_save obj) in
  let* obj := external (Call_sync_copr_repos obj) (sync_copr_repos obj) in
  let* obj := external (Call_add_auto_tags obj) (add_auto_tags obj) in
  let* obj := external (Call_collaborators_add obj (maintainer obj))
                       (collaborators_add obj (maintainer obj)) in
  ret obj.

(** *** UpdateForm *)

Definition UpdateForm_init (req : Request) (kwargs : Kwargs) : M RequestForm :=
  let* self := external Call_ModelForm_init (ModelForm_init UpdateForm kwargs) in
  let copr_username :=
    match REQUEST req !! "copr_username" with
    | Some v => v
    | None => copr_username (instance self)
    end in
  let* names := external (Call_coprnames copr_username) (coprnames copr_username) in
  let choices := copr_name_choices names in
  let* f := lift (getitem (fields self) "copr_name") in
  let self := set_fields self (<["copr_name" := set_choices f choices]> (fields self)) in
  let* tags := external (Call_tags_edit_string (instance self))
                        (tags_edit_string (instance self)) in
  let self := set_initial self "tags" (VStr tags) in
  let self := set_initial self "policy" (VStr (policy (instance self))) in
  ret (mk_RequestForm req self).

Definition UpdateForm_save (self : RequestForm) (commit : bool)
    : M SoftwareCollection :=
  let* obj := external (Call_ModelForm_save commit) (ModelForm_save (form self) commit) in
  let* tags := lift (getitem (cleaned_data (form self)) "tags") in
  let* obj := external (Call_set_tags obj tags) (set_tags obj tags) in
  let* obj := external (Call_sync_copr_repos obj) (sync_copr_repos obj) in
  let* obj := external (Call_add_auto_tags obj) (add_auto_tags obj) in
  ret obj.

(** *** CollaboratorsForm *)



(** [clean] returns [self.cleaned_data]; the form it has changed is returned
    with it. *)
Definition CollaboratorsForm_clean (self : ModelForm)
    : M (gmap string value * ModelForm) :=
  let* cd := external Call_ModelForm_clean (ModelForm_clean self) in
  let self := set_cleaned_data self cd in
  let* c := lift (getitem (cleaned_data self) "collaborators") in
  let* l := lift (py_list c) in
  let self := set_cleaned_data self (<["collaborators" := VList l]> (cleaned_data self)) in
  let* p := lift (pop (cleaned_data self) "add") in
  let add := p.1 in
  let self := set_cleaned_data self p.2 in
  let* self :=
    if truthy add then
      try_except
        (let* c := lift (getitem (cleaned_data self) "collaborators") in
         let* u := query (User_objects_get add) in
         let* c' := lift (append c (VUser u)) in
         ret (set_cleaned_data self (<["collaborators" := c']> (cleaned_data self))))
        (ret (set_error self "add" ["Unknown user"]))
    else ret self in
  let* c := lift (getitem (cleaned_data self) "collaborators") in
  let* c' := lift (append c (VUser (maintainer (instance self)))) in
  let self := set_cleaned_data self (<["collaborators" := c']> (cleaned_data self)) in
  ret (cleaned_data self, self).

Definition CollaboratorsForm_save (self : ModelForm) (commit : bool)
    : M SoftwareCollection :=
  let* obj := external (Call_ModelForm_save commit) (ModelForm_save self commit) in
  let* obj := external (Call_add_auto_tags obj) (add_auto_tags obj) in
  ret obj.

(** *** Vocabulary for the statements about the methods *)

(** The object [CreateForm.save] hands to the first model method: what the
    superclass [save] returned, after the three assignments. *)
Definition prepared (self : RequestForm) (obj : SoftwareCollection)
    : SoftwareCollection :=
  let obj := set_maintainer obj (user (request self)) in
  let obj := set_slug obj (format_slash (username (maintainer obj)) (name obj)) in
  set_title obj (pretty_name (name obj)).

(** A model method that, when it returns, has not changed the slug, the name
    or the maintainer of the object. *)
Definition keeps_identity
    (f : SoftwareCollection → W → result SoftwareCollection * W) : Prop :=
  ∀ o w o' w', f o w = (Ok o', w') →
    slug o' = slug o ∧ name o' = name o ∧ maintainer o' = maintainer o.

(** The value [resolve_copr_username] computes in world [w]. *)
Definition resolved_copr_username (req : Request) (w : W) : string :=
  match REQUEST req !! "copr_username" with
  | Some v => v
  | None =>
      match latest_maintained_by (user req) w with
      | Ok o => copr_username o
      | Raise _ => get_username (user req)
      end
  end.

(** The first row of an ordered list has the highest id. *)
Definition first_is_highest (l : list SoftwareCollection) : Prop :=
  match l with
  | [] => True
  | x :: _ => ∀ y, y ∈ l → id_key y ≤ id_key x
  end.

(** The choices of a field's widget, empty for a missing field. *)
Definition choices_of (self : ModelForm) (field_name : string)
    : list (value * string) :=
  match fields self !! field_name with
  | Some f => widget_choices f
  | None => []
  end.

End Methods.

End Forms.

(** ** A sample world

    A small concrete implementation of [Externals], on which the forms can
    be run: users and collections are lists of rows, the Copr service is a
    dictionary from a Copr user name to the names of that user's projects,
    and the file system is the list of the directories that exist. *)

Module Sample.
Import Models Py FormData Env Run Forms.

Record world : Type := mk_world {
  users : list User;
  scls : list SoftwareCollection;
  coprs : gmap string (list string);
  dirs : list string
}.

Definition with_scls (w : world) (l : list SoftwareCollection) : world :=
  mk_world (users w) l (coprs w) (dirs w).

Definition with_dirs (w : world) (l : list string) : world :=
  mk_world (users w) (scls w) (coprs w) l.

Definition blank_user : User := mk_User 0 "" "" "".

Definition blank_scl : SoftwareCollection :=
  mk_SoftwareCollection None "" "" "" "" "" "" "" "" blank_user []
    true true false false 0 None 0 None None.

Definition with_collaborators (o : SoftwareCollection) (l : list User)
    : SoftwareCollection :=
  mk_SoftwareCollection (scl_id o) (slug o) (name o) (title o) (description o)
    (instructions o) (policy o) (copr_username o) (copr_name o) (maintainer o)
    l (auto_sync o) (need_sync o) (approved o) (approval_req o)
    (download_count o) (score o) (score_count o) (create_date o) (last_sync_date o).

Definition with_id (o : SoftwareCollection) (i : Z) : SoftwareCollection :=
  mk_SoftwareCollection (Some i) (slug o) (name o) (title o) (description o)
    (instructions o) (policy o) (copr_username o) (copr_name o) (maintainer o)
    (collaborators o) (auto_sync o) (need_sync o) (approved o) (approval_req o)
    (download_count o) (score o) (score_count o) (create_date o) (last_sync_date o).

Definition sample_init (cls : FormClass) (kw : Kwargs) (w : world)
    : result ModelForm * world :=
  match base_fields cls with
  | Raise e => (Raise e, w)
  | Ok names =>
      (Ok (mk_ModelForm
             (match kw_instance kw with Some o => o | None => blank_scl end)
             (kw_initial kw)
             (list_to_map ((λ n, (n, mk_Field [] ∅)) <$> names))
             ∅ ∅), w)
  end.

(** Saving a new row gives it the next free id. *)
Definition sample_Model_save (o : SoftwareCollection) (w : world)
    : result SoftwareCollection * world :=
  let o' := match scl_id o with
            | Some _ => o
            | None => with_id o (1 + Z.of_nat (List.length (scls w)))
            end in
  (Ok o', with_scls w (scls w ++ [o'])).

(** The superclass [save] refuses a form with errors. *)
Definition sample_ModelForm_save (self : ModelForm) (commit : bool) (w : world)
    : result SoftwareCollection * world :=
  if bool_decide (errors self = ∅)
  then if commit then sample_Model_save (instance self) w
       else (Ok (instance self), w)
  else (Raise (ValueError "the data didn't validate"), w).

Definition sample_coprnames (u : string) (w : world) : result (list string) * world :=
  match coprs w !! u with
  | Some l => (Ok l, w)
  | None => (Raise (ExternalError "no such Copr user"), w)
  end.

(** The Copr project of a collection has to exist for a sync. *)
Definition sample_sync (o : SoftwareCollection) (w : world)
    : result SoftwareCollection * world :=
  match coprs w !! copr_username o with
  | Some l =>
      if bool_decide (copr_name o ∈ l) then (Ok o, w)
      else (Raise (ExternalError "no such Copr project"), w)
  | None => (Raise (ExternalError "no such Copr user"), w)
  end.

(** [os.makedirs] fails on a directory that exists. *)
Definition sample_makedirs (path : string) (w : world) : result unit * world :=
  if bool_decide (path ∈ dirs w)
  then (Raise (OSError "File exists"), w)
  else (Ok tt, with_dirs w (dirs w ++ [path])).

#[export] Instance sample_externals : Externals world := {|
  ModelForm_init := sample_init;
  ModelForm_clean := λ self w, (Ok (cleaned_data self), w);
  ModelForm_save := sample_ModelForm_save;
  coprnames := sample_coprnames;
  tags_edit_string := λ o w, (Ok "", w);
  sync_copr_texts := sample_sync;
  get_repos_root := λ o w, (Ok ("/srv/repos/" +:+ slug o), w);
  Model_save := sample_Model_save;
  sync_copr_repos := sample_sync;
  add_auto_tags := λ o w, (Ok o, w);
  collaborators_add := λ o u w, (Ok (with_collaborators o (collaborators o ++ [u])), w);
  set_tags := λ o v w, (Ok o, w);
  makedirs := sample_makedirs;
  User_objects := users;
  SoftwareCollection_objects := scls
|}.

(** A [scls_repo] table as it is before the migration, with one row. *)
Definition repo_table : South.table :=
  South.mk_table
    [("id", South.mk_field "django.db.models.fields.AutoField" None None);
     ("name", South.mk_field "django.db.models.fields.CharField" (Some 50) None)]
    [{["id" := "1"; "name" := "ruby193-rhel-6-x86_64"]}].

Definition repo_db : South.database := {["scls_repo" := repo_table]}.

Definition alice : User := mk_User 1 "alice" "Alice" "Liddell".
Definition bob : User := mk_User 2 "bob" "Bob" "".

Definition world0 : world :=
  mk_world [alice; bob] [] {["alice" := ["ruby193"; "python33"]]} [].

(** A request of alice without parameters, and one that names a Copr user. *)
Definition request0 : Request := mk_Request ∅ alice.
Definition request_empty : Request := mk_Request {["copr_username" := ""]} alice.

Definition no_kwargs : Kwargs := mk_Kwargs None None ∅.

(** The unsaved instance of a valid CreateForm for alice's [ruby193]. *)
Definition new_scl : SoftwareCollection :=
  mk_SoftwareCollection None "" "ruby193" "" "" "" "GPL" "alice" "ruby193" alice []
    true true false false 0 None 0 None None.

Definition create_form : RequestForm :=
  mk_RequestForm request0
    (mk_ModelForm new_scl ∅ ∅
       {["copr_username" := VStr "alice"; "copr_name" := VStr "ruby193";
         "maintainer" := VUser alice; "name" := VStr "ruby193";
         "policy" := VStr "GPL"]} ∅).

(** A saved collection of alice, and forms on it. *)
Definition saved_scl : SoftwareCollection :=
  mk_SoftwareCollection (Some 1) "alice/ruby193" "ruby193" "Ruby193" "" "" "GPL"
    "alice" "ruby193" alice [alice] true true false false 0 None 0 None None.

Definition update_form : RequestForm :=
  mk_RequestForm request0
    (mk_ModelForm saved_scl ∅ ∅
       {["title" := VStr "Ruby 1.9.3"; "tags" := VStr "ruby"]} ∅).

Definition collaborators_form (add : string) : ModelForm :=
  mk_ModelForm saved_scl ∅ ∅
    {["collaborators" := VList []; "add" := VStr add]} ∅.

(** A world in which the directory of alice's [ruby193] exists already. *)
Definition world_with_dir : world :=
  with_dirs world0 ["/srv/repos/alice/ruby193"].

(** A request that names a Copr user the service does not know. *)
Definition request_unknown : Request :=
  mk_Request {["copr_username" := "nobody"]} alice.

Definition update_kwargs : Kwargs := mk_Kwargs None (Some saved_scl) ∅.

(** A [scls_repo] table after the migration, with stored slugs. *)
Definition migrated_table : South.table :=
  South.mk_table
    [("id", South.mk_field "django.db.models.fields.AutoField" None None);
     ("slug", South.mk_field "django.db.models.fields.SlugField" (Some 150) None);
     ("name", South.mk_field "django.db.models.fields.CharField" (Some 50) None)]
    [{["id" := "1"; "slug" := "alice/ruby193/epel-6"; "name" := "epel-6"]}].

Definition migrated_db : South.database := {["scls_repo" := migrated_table]}.

(** Two collections of alice and one of bob, as rows of the database. *)
Definition scl_row (i : Z) (u : User) (cu : string) : SoftwareCollection :=
  mk_SoftwareCollection (Some i) "" "" "" "" "" "" cu "" u []
    true true false false 0 None 0 None None.

Definition world_with_scls : world :=
  mk_world [alice; bob]
    [scl_row 1 alice "alice"; scl_row 3 alice "alice-team"; scl_row 2 bob "bob"]
    {["alice" := ["ruby193"; "python33"]; "alice-team" := ["devtools"]]} [].

(** A world with two users of the same name. *)
Definition world_two_bobs : world :=
  mk_world [alice; bob; mk_User 3 "bob" "Robert" ""] [] ∅ [].

(** An [UpdateForm] whose cleaned data has no tags. *)
Definition update_form_no_tags : RequestForm :=
  mk_RequestForm request0
    (mk_ModelForm saved_scl ∅ ∅ {["title" := VStr "Ruby 1.9.3"]} ∅).

(** A collaborators form whose cleaned data lacks the collaborators. *)
Definition collaborators_form_invalid : ModelForm :=
  mk_ModelForm saved_scl ∅ ∅ {["add" := VStr "bob"]} ∅.



(** Three attempts to create a collection; the second repeats the
    (maintainer, name) pair of the first. *)
Definition scl_given : gmap string string :=
  {["maintainer" := "1"; "name" := "ruby193"]}.

Definition scl_ops : list Store.op :=
  [Store.Create scl_given;
   Store.Create (<["title" := "Ruby again"]> scl_given);
   Store.Create {["maintainer" := "2"; "name" := "ruby193"]}].

End Sample.

(** * Properties *)

(** ** The migration *)

Module MigrationFacts.
Import South Migration.

Lemma filter_added_column (name : string) (f : field) (cols : list (string * field)) :
  name ∉ cols.*1 →
  filter (λ c : string * field, c.1 ≠ name) (cols ++ [(name, f)]) = cols.
Proof.
  intros Hfresh. rewrite filter_app.
  rewrite filter_cons_False by (simpl; intros Hne; by apply Hne).
  rewrite filter_nil, app_nil_r.
  induction cols as [|[c g] cols IH]; [done|].
  rewrite fmap_cons, not_elem_of_cons in Hfresh. destruct Hfresh as [Hc Hrest].
  rewrite filter_cons_True by (simpl; intros ->; by apply Hc).
  by rewrite IH.
Qed.

Lemma delete_filled_rows (name d : string) (rs : list (gmap string string)) :
  Forall (λ r : gmap string string, r !! name = None) rs →
  (λ r : gmap string string, delete name r) <$>
    ((λ r : gmap string string, <[name := d]> r) <$> rs) = rs.
Proof.
  induction 1 as [|r rs Hr _ IH]; [done|].
  rewrite !fmap_cons, IH. f_equal.
  by rewrite delete_insert_eq, delete_id.
Qed.

Lemma forwards_result (db : database) (t : table) :
  db !! "scls_repo" = Some t →
  "slug" ∉ column_names t →
  forwards db =
    Ok (<["scls_repo" :=
          mk_table
            (columns t ++
               [("slug", mk_field "django.db.models.fields.SlugField" (Some 150) None)])
            ((λ r : gmap string string, <["slug" := ""]> r) <$> rows t)]> db).
Proof.
  intros Ht Hfresh. unfold forwards, add_column. rewrite Ht.
  by rewrite bool_decide_eq_false_2.
Qed.

(** Without the table there is nothing to alter: [forwards] raises. *)
Lemma forwards_without_table (db : database) :
  db !! "scls_repo" = None →
  forwards db = Raise (DatabaseError "no such table").
Proof. intros Ht. unfold forwards, add_column. by rewrite Ht. Qed.

(** Running the migration a second time is refused. *)
Lemma forwards_twice (db : database) (t : table) :
  db !! "scls_repo" = Some t →
  "slug" ∈ column_names t →
  forwards db = Raise (DatabaseError "duplicate column").
Proof.
  intros Ht Hin. unfold forwards, add_column. rewrite Ht.
  by rewrite bool_decide_eq_true_2.
Qed.

(** C3: on a database whose table [scls_repo] has no column [slug],
    [forwards] succeeds and adds that column, [backwards] then succeeds and
    deletes it, and the schema is the original one again; the rows are the
    original ones too when no row held a value outside its table's
    columns. *)
Theorem backwards_inverts_forwards (db : database) (t : table) :
  db !! "scls_repo" = Some t →
  "slug" ∉ column_names t →
  ∃ db1 db2,
    forwards db = Ok db1 ∧
    schema_of db1 = <["scls_repo" := columns t ++
       [("slug", mk_field "django.db.models.fields.SlugField" (Some 150) None)]]>
       (schema_of db) ∧
    backwards db1 = Ok db2 ∧
    schema_of db2 = schema_of db ∧
    (table_wf t → db2 = db).
Proof.
  intros Ht Hfresh. eexists _, _.
  split; [by apply forwards_result|].
  split; [unfold schema_of; by rewrite fmap_insert|].
  unfold backwards, delete_column. rewrite lookup_insert_eq.
  rewrite bool_decide_eq_true_2; cycle 1.
  { unfold column_names. simpl. rewrite fmap_app. set_solver. }
  split; [done|]. simpl. rewrite insert_insert_eq.
  rewrite filter_added_column by done.
  split.
  - unfold schema_of. rewrite fmap_insert. simpl.
    apply insert_id. by rewrite lookup_fmap, Ht.
  - intros Hwf. rewrite delete_filled_rows.
    + destruct t. by apply insert_id.
    + eapply Forall_impl; [exact Hwf|]. intros r Hr. by apply Hr.
Qed.

Lemma backwards_inverts_forwards_witness :
  ∃ db1, forwards Sample.repo_db = Ok db1 ∧ backwards db1 = Ok Sample.repo_db.
Proof.
  destruct (backwards_inverts_forwards Sample.repo_db Sample.repo_table)
    as (db1 & db2 & Hf & _ & Hb & _ & Hwf).
  - reflexivity.
  - apply (bool_decide_unpack _). vm_compute. exact I.
  - exists db1. split; [exact Hf|]. rewrite Hb, Hwf; [reflexivity|].
    repeat constructor. intros c Hc. unfold Sample.repo_table in *.
    cbn in Hc. apply not_elem_of_cons in Hc as [Hid Hc].
    apply not_elem_of_cons in Hc as [Hname _].
    rewrite lookup_insert_ne by done. by rewrite lookup_singleton_ne.
Defined.

End MigrationFacts.

(** ** The declared contracts *)

Module ContractFacts.
Import South Migration FormData Forms.

(** C6: the fields the two form classes expose and the column the migration
    adds.  [CreateForm] exposes the five names of its [Meta.fields], each a
    field of the model; [UpdateForm] exposes the seven names of its
    [Meta.fields], each a field of the model, and then the declared field
    [tags], which is not a model field; [forwards] appends to [scls_repo] the
    column [slug], a SlugField of max_length 150 whose default [''] fills the
    existing rows and is not kept on the column. *)
Theorem declared_contracts (db : database) (t : table) :
  db !! "scls_repo" = Some t →
  "slug" ∉ column_names t →
  base_fields CreateForm =
    Ok ["copr_username"; "copr_name"; "maintainer"; "name"; "policy"] ∧
  Meta_fields CreateForm =
    ["copr_username"; "copr_name"; "maintainer"; "name"; "policy"] ∧
  declared_fields CreateForm = [] ∧
  Forall (λ f, Frozen.has_field Frozen.scls_softwarecollection f = true)
         (Meta_fields CreateForm) ∧
  base_fields UpdateForm =
    Ok ["title"; "description"; "instructions"; "policy"; "copr_username";
        "copr_name"; "auto_sync"; "tags"] ∧
  Meta_fields UpdateForm =
    ["title"; "description"; "instructions"; "policy"; "copr_username";
     "copr_name"; "auto_sync"] ∧
  declared_fields UpdateForm = ["tags"] ∧
  Forall (λ f, Frozen.has_field Frozen.scls_softwarecollection f = true)
         (Meta_fields UpdateForm) ∧
  Frozen.has_field Frozen.scls_softwarecollection "tags" = false ∧
  forwards db =
    Ok (<["scls_repo" :=
          mk_table
            (columns t ++
               [("slug", mk_field "django.db.models.fields.SlugField" (Some 150) None)])
            ((λ r : gmap string string, <["slug" := ""]> r) <$> rows t)]> db).
Proof.
  intros Ht Hfresh.
  repeat split; try (vm_compute; reflexivity);
    try (apply (bool_decide_unpack _); vm_compute; exact I).
  by apply MigrationFacts.forwards_result.
Qed.

Lemma declared_contracts_witness :
  base_fields UpdateForm =
    Ok ["title"; "description"; "instructions"; "policy"; "copr_username";
        "copr_name"; "auto_sync"; "tags"] ∧
  Migration.forwards Sample.repo_db =
    Ok {["scls_repo" :=
          mk_table
            [("id", mk_field "django.db.models.fields.AutoField" None None);
             ("name", mk_field "django.db.models.fields.CharField" (Some 50) None);
             ("slug", mk_field "django.db.models.fields.SlugField" (Some 150) None)]
            [{["id" := "1"; "name" := "ruby193-rhel-6-x86_64"; "slug" := ""]}]]}.
Proof.
  destruct (declared_contracts Sample.repo_db Sample.repo_table)
    as (_ & _ & _ & _ & Hu & _ & _ & _ & _ & Hf).
  - reflexivity.
  - apply (bool_decide_unpack _). vm_compute. exact I.
  - split; [exact Hu|]. rewrite Hf. vm_compute. reflexivity.
Defined.

End ContractFacts.

(** ** The declared invariants of stored records *)

Module StoreFacts.
Import Frozen Store.

Lemma conflicts_false (m : frozen_model) (r : row) (others : list row) :
  conflicts m r others = false →
  Forall (λ ks, project ks r ∉ project ks <$> others) (unique_together m).
Proof.
  unfold conflicts. intros Hc%bool_decide_eq_false.
  by apply Forall_Exists_neg in Hc.
Qed.

Lemma create_unique_ok (m : frozen_model) (given : row) (stored stored' : list row) :
  unique_ok m stored →
  create m given stored = Ok stored' →
  unique_ok m stored'.
Proof.
  unfold create, unique_ok. intros Hok Hc.
  destruct (conflicts m (given ∪ defaults m) stored) eqn:Hconf; [done|].
  injection Hc as <-. apply conflicts_false in Hconf.
  rewrite Forall_forall in *. intros ks Hks.
  rewrite fmap_app. apply NoDup_app. split; [by apply Hok|].
  split; [|apply NoDup_singleton].
  intros x Hx Hx'. apply list_elem_of_singleton in Hx'. subst x.
  by apply (Hconf ks Hks).
Qed.

Lemma update_unique_ok (m : frozen_model) (i : nat) (changes : row)
    (stored stored' : list row) :
  unique_ok m stored →
  update m i changes stored = Ok stored' →
  unique_ok m stored'.
Proof.
  unfold update, unique_ok. intros Hok Hu.
  destruct (stored !! i) as [old|] eqn:Hi; [|done].
  destruct (conflicts m (changes ∪ old) (delete i stored)) eqn:Hconf; [done|].
  injection Hu as <-. apply conflicts_false in Hconf.
  rewrite Forall_forall in *. intros ks Hks.
  specialize (Hok ks Hks). specialize (Hconf ks Hks).
  pose proof (lookup_lt_Some _ _ _ Hi) as Hlt.
  rewrite insert_take_drop by done.
  rewrite delete_take_drop in Hconf.
  rewrite <- (take_drop_middle stored i old Hi) in Hok.
  rewrite fmap_app, fmap_cons in *.
  try rewrite fmap_app in Hconf.
  apply NoDup_app in Hok as (Hl & Hlr & Hr).
  apply NoDup_cons in Hr as [_ Hr].
  apply NoDup_app. split; [done|]. split.
  - intros x Hx Hx'. apply elem_of_cons in Hx' as [->|Hx'].
    + apply Hconf. apply elem_of_app. by left.
    + apply (Hlr x Hx). by right.
  - apply NoDup_cons. split; [|done].
    intros Hin. apply Hconf. apply elem_of_app. by right.
Qed.

Lemma remove_unique_ok (m : frozen_model) (i : nat) (stored stored' : list row) :
  unique_ok m stored →
  remove i stored = Ok stored' →
  unique_ok m stored'.
Proof.
  unfold remove, unique_ok. intros Hok [= <-].
  eapply Forall_impl; [exact Hok|]. intros ks Hnd. simpl in Hnd.
  eapply sublist_NoDup; [exact Hnd|].
  apply fmap_sublist, sublist_delete.
Qed.

Lemma apply_unique_ok (m : frozen_model) (o : op) (stored stored' : list row) :
  unique_ok m stored →
  apply m o stored = Ok stored' →
  unique_ok m stored'.
Proof.
  destruct o; simpl;
    eauto using create_unique_ok, update_unique_ok, remove_unique_ok.
Qed.

Lemma run_unique_ok (m : frozen_model) (ops : list op) (stored : list row) :
  unique_ok m stored → unique_ok m (run m ops stored).
Proof.
  revert stored. induction ops as [|o ops IH]; intros stored Hok; [done|].
  simpl. destruct (apply m o stored) as [stored'|e] eqn:Ha.
  - apply IH. eauto using apply_unique_ok.
  - by apply IH.
Qed.

Lemma unique_ok_nil (m : frozen_model) : unique_ok m [].
Proof. unfold unique_ok. apply Forall_forall. intros ks _. constructor. Qed.

(** Two stored records that agree on a declared unique pair are one record. *)
Lemma unique_pair (m : frozen_model) (a b : string) (stored : list row)
    (i j : nat) (r1 r2 : row) :
  [a; b] ∈ unique_together m →
  unique_ok m stored →
  stored !! i = Some r1 → stored !! j = Some r2 →
  r1 !! a = r2 !! a → r1 !! b = r2 !! b →
  i = j.
Proof.
  intros Hin Hok H1 H2 Ha Hb.
  unfold unique_ok in Hok. rewrite Forall_forall in Hok.
  specialize (Hok _ Hin).
  eapply NoDup_lookup; [exact Hok| |].
  - rewrite list_lookup_fmap, H1. reflexivity.
  - rewrite list_lookup_fmap, H2. simpl. unfold project. simpl. by rewrite Ha, Hb.
Qed.

Lemma create_defaults (m : frozen_model) (given : row) (stored stored' : list row) :
  create m given stored = Ok stored' →
  ∃ r, stored' = stored ++ [r] ∧
       (∀ f v, given !! f = Some v → r !! f = Some v) ∧
       (∀ f d, given !! f = None → defaults m !! f = Some d → r !! f = Some d).
Proof.
  unfold create. destruct (conflicts _ _ _); [done|]. intros [= <-].
  eexists. split; [done|]. split.
  - intros f v Hg. by apply lookup_union_Some_l.
  - intros f d Hg Hd. rewrite lookup_union_r; done.
Qed.

(** C5: the declared invariants, on the records stored through [create],
    [update] and [remove] from an empty table.  No two SoftwareCollection
    records have the same (maintainer, name), no two Score records the same
    (scl, user), no two Repo records the same (scl, name); and a record
    created without a value for a field with a declared default holds that
    default: [download_count] 0, [auto_sync], [need_sync] and [enabled] True,
    [approved] False. *)
Theorem declared_invariants_hold :
  (∀ ops i j r1 r2,
     run scls_softwarecollection ops [] !! i = Some r1 →
     run scls_softwarecollection ops [] !! j = Some r2 →
     r1 !! "maintainer" = r2 !! "maintainer" → r1 !! "name" = r2 !! "name" →
     i = j) ∧
  (∀ ops i j r1 r2,
     run scls_score ops [] !! i = Some r1 →
     run scls_score ops [] !! j = Some r2 →
     r1 !! "scl" = r2 !! "scl" → r1 !! "user" = r2 !! "user" →
     i = j) ∧
  (∀ ops i j r1 r2,
     run scls_repo ops [] !! i = Some r1 →
     run scls_repo ops [] !! j = Some r2 →
     r1 !! "scl" = r2 !! "scl" → r1 !! "name" = r2 !! "name" →
     i = j) ∧
  (∀ given stored stored',
     create scls_softwarecollection given stored = Ok stored' →
     ∃ r, stored' = stored ++ [r] ∧
       (given !! "download_count" = None → r !! "download_count" = Some "0") ∧
       (given !! "auto_sync" = None → r !! "auto_sync" = Some "True") ∧
       (given !! "need_sync" = None → r !! "need_sync" = Some "True") ∧
       (given !! "approved" = None → r !! "approved" = Some "False")) ∧
  (∀ given stored stored',
     create scls_repo given stored = Ok stored' →
     ∃ r, stored' = stored ++ [r] ∧
       (given !! "download_count" = None → r !! "download_count" = Some "0") ∧
       (given !! "auto_sync" = None → r !! "auto_sync" = Some "True") ∧
       (given !! "need_sync" = None → r !! "need_sync" = Some "True") ∧
       (given !! "enabled" = None → r !! "enabled" = Some "True")).
Proof.
  split; [|split; [|split; [|split]]].
  - intros ops i j r1 r2.
    apply (unique_pair scls_softwarecollection "maintainer" "name" (run scls_softwarecollection ops [])).
    + apply (bool_decide_unpack _). vm_compute. exact I.
    + apply run_unique_ok, unique_ok_nil.
  - intros ops i j r1 r2.
    apply (unique_pair scls_score "scl" "user" (run scls_score ops [])).
    + apply (bool_decide_unpack _). vm_compute. exact I.
    + apply run_unique_ok, unique_ok_nil.
  - intros ops i j r1 r2.
    apply (unique_pair scls_repo "scl" "name" (run scls_repo ops [])).
    + apply (bool_decide_unpack _). vm_compute. exact I.
    + apply run_unique_ok, unique_ok_nil.
  - intros given stored stored' Hc.
    apply create_defaults in Hc as (r & -> & _ & Hd).
    exists r. split; [done|].
    repeat split; intros Hg; apply (Hd _ _ Hg); reflexivity.
  - intros given stored stored' Hc.
    apply create_defaults in Hc as (r & -> & _ & Hd).
    exists r. split; [done|].
    repeat split; intros Hg; apply (Hd _ _ Hg); reflexivity.
Qed.

Lemma declared_invariants_hold_witness :
  List.length (run scls_softwarecollection Sample.scl_ops []) = 2%nat ∧
  (∀ r1 r2,
     run scls_softwarecollection Sample.scl_ops [] !! 0%nat = Some r1 →
     run scls_softwarecollection Sample.scl_ops [] !! 1%nat = Some r2 →
     ¬ (r1 !! "maintainer" = r2 !! "maintainer" ∧ r1 !! "name" = r2 !! "name")) ∧
  ∃ r, create scls_softwarecollection Sample.scl_given [] = Ok [r] ∧
       r !! "download_count" = Some "0" ∧ r !! "approved" = Some "False".
Proof.
  destruct declared_invariants_hold as (Huniq & _ & _ & Hdef & _).
  split; [reflexivity|]. split.
  - intros r1 r2 H1 H2 [Hm Hn].
    pose proof (Huniq Sample.scl_ops 0%nat 1%nat r1 r2 H1 H2 Hm Hn). discriminate.
  - destruct (Hdef Sample.scl_given []
                [Sample.scl_given ∪ defaults scls_softwarecollection])
      as (r & Hr & Hdc & _ & _ & Happ); [reflexivity|].
    exists r. split.
    + simpl in Hr. injection Hr as <-. reflexivity.
    + split; [apply Hdc|apply Happ]; reflexivity.
Defined.

End StoreFacts.

(** ** The form methods *)

Module FormFacts.
Import Models Py FormData Env Run Forms.

Section Facts.
Context {W : Type} `{Externals W}.

Implicit Types (s : W * list call) (w : W) (log : list call).

(** *** Running a computation step by step *)

Lemma bind_Ok {A B} (m : M A) (k : A → M B) s (b : B) s' :
  bind m k s = (Ok b, s') ↔ ∃ a s1, m s = (Ok a, s1) ∧ k a s1 = (Ok b, s').
Proof.
  unfold bind. destruct (m s) as [[a|e] s1]; split.
  - intros Hk. by exists a, s1.
  - by intros (a' & s1' & [= -> ->] & Hk).
  - done.
  - by intros (a' & s1' & ? & _).
Qed.

Lemma bind_Raise {A B} (m : M A) (k : A → M B) s (e : exc) s' :
  bind m k s = (Raise e, s') ↔
  m s = (Raise e, s') ∨ ∃ a s1, m s = (Ok a, s1) ∧ k a s1 = (Raise e, s').
Proof.
  unfold bind. destruct (m s) as [[a|e0] s1]; split.
  - intros Hk. right. by exists a, s1.
  - intros [?|(a' & s1' & [= -> ->] & Hk)]; done.
  - intros [= -> ->]. by left.
  - intros [[= -> ->]|(a' & s1' & ? & _)]; done.
Qed.

Lemma bind_step {A B} (m : M A) (k : A → M B) s (a : A) s1 :
  m s = (Ok a, s1) → bind m k s = k a s1.
Proof. unfold bind. by intros ->. Qed.

Lemma bind_fail {A B} (m : M A) (k : A → M B) s (e : exc) s1 :
  m s = (Raise e, s1) → bind m k s = (Raise e, s1).
Proof. unfold bind. by intros ->. Qed.

Lemma external_run {A} (c : call) (f : W → result A * W) w log (r : result A) w' :
  f w = (r, w') → external c f (w, log) = (r, (w', log ++ [c])).
Proof. unfold external. simpl. by intros ->. Qed.

Lemma external_inv {A} (c : call) (f : W → result A * W) w log (r : result A) w' log' :
  external c f (w, log) = (r, (w', log')) ↔ f w = (r, w') ∧ log' = log ++ [c].
Proof.
  unfold external. simpl. destruct (f w) as [r0 w0]. split.
  - by intros [= -> -> ->].
  - by intros [[= -> ->] ->].
Qed.

Lemma lift_inv {A} (r r' : result A) s s' :
  lift r s = (r', s') ↔ r' = r ∧ s' = s.
Proof. unfold lift. split; [by intros [= -> ->]|by intros [-> ->]]. Qed.

Lemma ret_inv {A} (a : A) (r : result A) s s' :
  ret a s = (r, s') ↔ r = Ok a ∧ s' = s.
Proof. unfold ret. split; [by intros [= <- <-]|by intros [-> ->]]. Qed.

(** *** CreateForm.save and UpdateForm.save *)

(** The calls of a [CreateForm.save] that returns, in order. *)
Lemma CreateForm_save_Ok (self : RequestForm) (commit : bool) w log
    (obj : SoftwareCollection) w' log' :
  CreateForm_save self commit (w, log) = (Ok obj, (w', log')) ↔
  ∃ o0 w1 o1 w2 root w3 w4 o2 w5 o3 w6 o4 w7,
    ModelForm_save (form self) false w = (Ok o0, w1) ∧
    sync_copr_texts (prepared self o0) w1 = (Ok o1, w2) ∧
    get_repos_root o1 w2 = (Ok root, w3) ∧
    makedirs root w3 = (Ok tt, w4) ∧
    Model_save o1 w4 = (Ok o2, w5) ∧
    sync_copr_repos o2 w5 = (Ok o3, w6) ∧
    add_auto_tags o3 w6 = (Ok o4, w7) ∧
    collaborators_add o4 (maintainer o4) w7 = (Ok obj, w') ∧
    log' = log ++
      [Call_ModelForm_save false;
       Call_sync_copr_texts (prepared self o0);
       Call_get_repos_root o1;
       Call_makedirs root;
       Call_save o1;
       Call_sync_copr_repos o2;
       Call_add_auto_tags o3;
       Call_collaborators_add o4 (maintainer o4)].
Proof.
  unfold CreateForm_save. fold (prepared self). split.
  - intros Hrun.
    apply bind_Ok in Hrun as (o0 & [w1 l1] & H0 & Hrun).
    apply external_inv in H0 as [H0 ->].
    apply bind_Ok in Hrun as (o1 & [w2 l2] & H1 & Hrun).
    apply external_inv in H1 as [H1 ->].
    apply bind_Ok in Hrun as (root & [w3 l3] & H2 & Hrun).
    apply external_inv in H2 as [H2 ->].
    apply bind_Ok in Hrun as ([] & [w4 l4] & H3 & Hrun).
    apply external_inv in H3 as [H3 ->].
    apply bind_Ok in Hrun as (o2 & [w5 l5] & H4 & Hrun).
    apply external_inv in H4 as [H4 ->].
    apply bind_Ok in Hrun as (o3 & [w6 l6] & H5 & Hrun).
    apply external_inv in H5 as [H5 ->].
    apply bind_Ok in Hrun as (o4 & [w7 l7] & H6 & Hrun).
    apply external_inv in H6 as [H6 ->].
    apply bind_Ok in Hrun as (o5 & [w8 l8] & H7 & Hrun).
    apply external_inv in H7 as [H7 ->].
    apply ret_inv in Hrun as [[= ->] [= -> ->]].
    exists o0, w1, o1, w2, root, w3, w4, o2, w5, o3, w6, o4, w7.
    repeat (split; [done|]). by rewrite <- !app_assoc.
  - intros (o0 & w1 & o1 & w2 & root & w3 & w4 & o2 & w5 & o3 & w6 & o4 & w7 &
            H0 & H1 & H2 & H3 & H4 & H5 & H6 & H7 & ->).
    rewrite (bind_step _ _ _ _ _ (external_run _ _ _ _ _ _ H0)).
    rewrite (bind_step _ _ _ _ _ (external_run _ _ _ _ _ _ H1)).
    rewrite (bind_step _ _ _ _ _ (external_run _ _ _ _ _ _ H2)).
    rewrite (bind_step _ _ _ _ _ (external_run _ _ _ _ _ _ H3)).
    rewrite (bind_step _ _ _ _ _ (external_run _ _ _ _ _ _ H4)).
    rewrite (bind_step _ _ _ _ _ (external_run _ _ _ _ _ _ H5)).
    rewrite (bind_step _ _ _ _ _ (external_run _ _ _ _ _ _ H6)).
    rewrite (bind_step _ _ _ _ _ (external_run _ _ _ _ _ _ H7)).
    unfold ret. by rewrite <- !app_assoc.
Qed.


(** The calls of an [UpdateForm.save] that returns, in order. *)
Lemma UpdateForm_save_Ok (self : RequestForm) (commit : bool) w log
    (obj : SoftwareCollection) w' log' :
  UpdateForm_save self commit (w, log) = (Ok obj, (w', log')) ↔
  ∃ o0 w1 tags o1 w2 o2 w3,
    ModelForm_save (form self) commit w = (Ok o0, w1) ∧
    cleaned_data (form self) !! "tags" = Some tags ∧
    set_tags o0 tags w1 = (Ok o1, w2) ∧
    sync_copr_repos o1 w2 = (Ok o2, w3) ∧
    add_auto_tags o2 w3 = (Ok obj, w') ∧
    log' = log ++
      [Call_ModelForm_save commit;
       Call_set_tags o0 tags;
       Call_sync_copr_repos o1;
       Call_add_auto_tags o2].
Proof.
  unfold UpdateForm_save. split.
  - intros Hrun.
    apply bind_Ok in Hrun as (o0 & [w1 l1] & H0 & Hrun).
    apply external_inv in H0 as [H0 ->].
    apply bind_Ok in Hrun as (tags & [w1' l1'] & Ht & Hrun).
    apply lift_inv in Ht as [Ht [= -> ->]].
    unfold getitem in Ht.
    destruct (cleaned_data (form self) !! "tags") as [tags'|] eqn:Htags; [|done].
    injection Ht as <-.
    apply bind_Ok in Hrun as (o1 & [w2 l2] & H1 & Hrun).
    apply external_inv in H1 as [H1 ->].
    apply bind_Ok in Hrun as (o2 & [w3 l3] & H2 & Hrun).
    apply external_inv in H2 as [H2 ->].
    apply bind_Ok in Hrun as (o3 & [w4 l4] & H3 & Hrun).
    apply external_inv in H3 as [H3 ->].
    apply ret_inv in Hrun as [[= ->] [= -> ->]].
    eexists o0, w1, _, o1, w2, o2, w3.
    repeat (split; [done|]). by rewrite <- !app_assoc.
  - intros (o0 & w1 & tags & o1 & w2 & o2 & w3 & H0 & Ht & H1 & H2 & H3 & ->).
    rewrite (bind_step _ _ _ _ _ (external_run _ _ _ _ _ _ H0)).
    unfold getitem. rewrite Ht.
    rewrite (bind_step _ _ _ tags _ eq_refl).
    rewrite (bind_step _ _ _ _ _ (external_run _ _ _ _ _ _ H1)).
    rewrite (bind_step _ _ _ _ _ (external_run _ _ _ _ _ _ H2)).
    rewrite (bind_step _ _ _ _ _ (external_run _ _ _ _ _ _ H3)).
    unfold ret. by rewrite <- !app_assoc.
Qed.

(** C1: the object a [CreateForm.save] returns has the request's user as
    maintainer and the slug [maintainer.username + '/' + name], where the
    name is the one the superclass save gave the object, provided the model
    methods called after the assignment leave slug, name and maintainer as
    they are. *)
Theorem CreateForm_save_slug (self : RequestForm) (commit : bool) w log
    (obj : SoftwareCollection) s' :
  keeps_identity sync_copr_texts →
  keeps_identity Model_save →
  keeps_identity sync_copr_repos →
  keeps_identity add_auto_tags →
  (∀ u, keeps_identity (λ o, collaborators_add o u)) →
  CreateForm_save self commit (w, log) = (Ok obj, s') →
  maintainer obj = user (request self) ∧
  slug obj = username (maintainer obj) +:+ "/" +:+ name obj ∧
  ∃ o0 w1, ModelForm_save (form self) false w = (Ok o0, w1) ∧ name obj = name o0.
Proof.
  intros K1 K2 K3 K4 K5 Hrun. destruct s' as [w' log'].
  apply CreateForm_save_Ok in Hrun
    as (o0 & w1 & o1 & w2 & root & w3 & w4 & o2 & w5 & o3 & w6 & o4 & w7 &
        H0 & H1 & _ & _ & H4 & H5 & H6 & H7 & _).
  apply K1 in H1 as (S1 & N1 & M1). apply K2 in H4 as (S2 & N2 & M2).
  apply K3 in H5 as (S3 & N3 & M3). apply K4 in H6 as (S4 & N4 & M4).
  apply K5 in H7 as (S5 & N5 & M5).
  rewrite S5, N5, M5, S4, N4, M4, S3, N3, M3, S2, N2, M2, S1, N1, M1.
  split; [reflexivity|]. split; [reflexivity|]. by exists o0, w1.
Qed.

(** C4: a [CreateForm.save] returns exactly when the superclass save and
    then, on the object it gave, [sync_copr_texts], [get_repos_root] and
    [os.makedirs] of that root, the model's [save], [sync_copr_repos],
    [add_auto_tags] and [collaborators.add] of the maintainer all return, and
    it has then made these calls in this order; an [UpdateForm.save] returns
    exactly when the superclass save, the assignment of the cleaned tags,
    [sync_copr_repos] and [add_auto_tags] all return, and it has then made
    these calls in this order. *)
Theorem save_cascade (self : RequestForm) (commit : bool) w log
    (obj : SoftwareCollection) w' log' :
  (CreateForm_save self commit (w, log) = (Ok obj, (w', log')) ↔
   ∃ o0 w1 o1 w2 root w3 w4 o2 w5 o3 w6 o4 w7,
     ModelForm_save (form self) false w = (Ok o0, w1) ∧
     sync_copr_texts (prepared self o0) w1 = (Ok o1, w2) ∧
     get_repos_root o1 w2 = (Ok root, w3) ∧
     makedirs root w3 = (Ok tt, w4) ∧
     Model_save o1 w4 = (Ok o2, w5) ∧
     sync_copr_repos o2 w5 = (Ok o3, w6) ∧
     add_auto_tags o3 w6 = (Ok o4, w7) ∧
     collaborators_add o4 (maintainer o4) w7 = (Ok obj, w') ∧
     log' = log ++
       [Call_ModelForm_save false;
        Call_sync_copr_texts (prepared self o0);
        Call_get_repos_root o1;
        Call_makedirs root;
        Call_save o1;
        Call_sync_copr_repos o2;
        Call_add_auto_tags o3;
        Call_collaborators_add o4 (maintainer o4)]) ∧
  (UpdateForm_save self commit (w, log) = (Ok obj, (w', log')) ↔
   ∃ o0 w1 tags o1 w2 o2 w3,
     ModelForm_save (form self) commit w = (Ok o0, w1) ∧
     cleaned_data (form self) !! "tags" = Some tags ∧
     set_tags o0 tags w1 = (Ok o1, w2) ∧
     sync_copr_repos o1 w2 = (Ok o2, w3) ∧
     add_auto_tags o2 w3 = (Ok obj, w') ∧
     log' = log ++
       [Call_ModelForm_save commit;
        Call_set_tags o0 tags;
        Call_sync_copr_repos o1;
        Call_add_auto_tags o2]).
Proof. split; [apply CreateForm_save_Ok|apply UpdateForm_save_Ok]. Qed.







(** *** Failures of external calls *)

Lemma CreateForm_save_sync_copr_texts_raises (self : RequestForm) (commit : bool)
    w log o0 w1 (e : exc) w2 :
  ModelForm_save (form self) false w = (Ok o0, w1) →
  sync_copr_texts (prepared self o0) w1 = (Raise e, w2) →
  CreateForm_save self commit (w, log) =
    (Raise e, (w2, log ++ [Call_ModelForm_save false;
                           Call_sync_copr_texts (prepared self o0)])).
Proof.
  intros H0 H1. unfold CreateForm_save. fold (prepared self).
  rewrite (bind_step _ _ _ _ _ (external_run _ _ _ _ _ _ H0)).
  rewrite (bind_fail _ _ _ _ _ (external_run _ _ _ _ _ _ H1)).
  by rewrite <- !app_assoc.
Qed.

Lemma CreateForm_save_makedirs_raises (self : RequestForm) (commit : bool)
    w log o0 w1 o1 w2 root w3 (e : exc) w4 :
  ModelForm_save (form self) false w = (Ok o0, w1) →
  sync_copr_texts (prepared self o0) w1 = (Ok o1, w2) →
  get_repos_root o1 w2 = (Ok root, w3) →
  makedirs root w3 = (Raise e, w4) →
  CreateForm_save self commit (w, log) =
    (Raise e, (w4, log ++ [Call_ModelForm_save false;
                           Call_sync_copr_texts (prepared self o0);
                           Call_get_repos_root o1;
                           Call_makedirs root])).
Proof.
  intros H0 H1 H2 H3. unfold CreateForm_save. fold (prepared self).
  rewrite (bind_step _ _ _ _ _ (external_run _ _ _ _ _ _ H0)).
  rewrite (bind_step _ _ _ _ _ (external_run _ _ _ _ _ _ H1)).
  rewrite (bind_step _ _ _ _ _ (external_run _ _ _ _ _ _ H2)).
  rewrite (bind_fail _ _ _ _ _ (external_run _ _ _ _ _ _ H3)).
  by rewrite <- !app_assoc.
Qed.

Lemma CreateForm_save_sync_copr_repos_raises (self : RequestForm) (commit : bool)
    w log o0 w1 o1 w2 root w3 w4 o2 w5 (e : exc) w6 :
  ModelForm_save (form self) false w = (Ok o0, w1) →
  sync_copr_texts (prepared self o0) w1 = (Ok o1, w2) →
  get_repos_root o1 w2 = (Ok root, w3) →
  makedirs root w3 = (Ok tt, w4) →
  Model_save o1 w4 = (Ok o2, w5) →
  sync_copr_repos o2 w5 = (Raise e, w6) →
  CreateForm_save self commit (w, log) =
    (Raise e, (w6, log ++ [Call_ModelForm_save false;
                           Call_sync_copr_texts (prepared self o0);
                           Call_get_repos_root o1;
                           Call_makedirs root;
                           Call_save o1;
                           Call_sync_copr_repos o2])).
Proof.
  intros H0 H1 H2 H3 H4 H5. unfold CreateForm_save. fold (prepared self).
  rewrite (bind_step _ _ _ _ _ (external_run _ _ _ _ _ _ H0)).
  rewrite (bind_step _ _ _ _ _ (external_run _ _ _ _ _ _ H1)).
  rewrite (bind_step _ _ _ _ _ (external_run _ _ _ _ _ _ H2)).
  rewrite (bind_step _ _ _ _ _ (external_run _ _ _ _ _ _ H3)).
  rewrite (bind_step _ _ _ _ _ (external_run _ _ _ _ _ _ H4)).
  rewrite (bind_fail _ _ _ _ _ (external_run _ _ _ _ _ _ H5)).
  by rewrite <- !app_assoc.
Qed.

(** The Copr user name [UpdateForm.__init__] looks up. *)
Lemma UpdateForm_init_coprnames_raises (req : Request) (kwargs : Kwargs)
    w log self0 w1 (e : exc) w2 :
  let u := match REQUEST req !! "copr_username" with
           | Some v => v
           | None => copr_username (instance self0)
           end in
  ModelForm_init UpdateForm kwargs w = (Ok self0, w1) →
  coprnames u w1 = (Raise e, w2) →
  UpdateForm_init req kwargs (w, log) =
    (Raise e, (w2, log ++ [Call_ModelForm_init; Call_coprnames u])).
Proof.
  intros u H0 H1. unfold UpdateForm_init.
  rewrite (bind_step _ _ _ _ _ (external_run _ _ _ _ _ _ H0)).
  fold u.
  rewrite (bind_fail _ _ _ _ _ (external_run _ _ _ _ _ _ H1)).
  by rewrite <- !app_assoc.
Qed.

Lemma resolve_copr_username_run (req : Request) s :
  resolve_copr_username req s = (Ok (resolved_copr_username req s.1), s).
Proof.
  unfold resolve_copr_username, resolved_copr_username.
  destruct (REQUEST req !! "copr_username") as [v|]; [done|].
  unfold try_except, bind, query, ret.
  by destruct (latest_maintained_by (user req) s.1).
Qed.

Lemma CreateForm_init_coprnames_raises (req : Request) (kwargs : Kwargs)
    w log self0 w1 (e : exc) w2 :
  ModelForm_init CreateForm kwargs w = (Ok self0, w1) →
  resolved_copr_username req w1 ≠ "" →
  coprnames (resolved_copr_username req w1) w1 = (Raise e, w2) →
  CreateForm_init req kwargs (w, log) =
    (Raise e, (w2, log ++ [Call_ModelForm_init;
                           Call_coprnames (resolved_copr_username req w1)])).
Proof.
  intros H0 Hu H1. unfold CreateForm_init.
  rewrite (bind_step _ _ _ _ _ (external_run _ _ _ _ _ _ H0)).
  rewrite (bind_step _ _ _ _ _ (resolve_copr_username_run req _)).
  cbv beta zeta. cbn [fst].
  assert (truthy (VStr (resolved_copr_username req w1)) = true) as ->.
  { simpl. by destruct (String.eqb_spec (resolved_copr_username req w1) ""). }
  rewrite (bind_fail _ _ _ _ _ (external_run _ _ _ _ _ _ H1)).
  by rewrite <- !app_assoc.
Qed.


(** C7: a failure of the Copr lookup in [UpdateForm.__init__], or of
    [sync_copr_texts], [os.makedirs] or [sync_copr_repos] in
    [CreateForm.save], is the outcome of the method: the same exception is
    raised to the caller, and no call follows the failed one. *)
Theorem external_failures_propagate (self : RequestForm) (commit : bool)
    (req : Request) (kwargs : Kwargs) w log (e : exc) :
  (∀ self0 w1 w2,
     ModelForm_init UpdateForm kwargs w = (Ok self0, w1) →
     coprnames (match REQUEST req !! "copr_username" with
                | Some v => v
                | None => copr_username (instance self0)
                end) w1 = (Raise e, w2) →
     ∃ log', UpdateForm_init req kwargs (w, log) = (Raise e, (w2, log')) ∧
             ∃ u, log' = log ++ [Call_ModelForm_init; Call_coprnames u]) ∧
  (∀ o0 w1 w2,
     ModelForm_save (form self) false w = (Ok o0, w1) →
     sync_copr_texts (prepared self o0) w1 = (Raise e, w2) →
     ∃ log', CreateForm_save self commit (w, log) = (Raise e, (w2, log')) ∧
             ∃ o, log' = log ++ [Call_ModelForm_save false; Call_sync_copr_texts o]) ∧
  (∀ o0 w1 o1 w2 root w3 w4,
     ModelForm_save (form self) false w = (Ok o0, w1) →
     sync_copr_texts (prepared self o0) w1 = (Ok o1, w2) →
     get_repos_root o1 w2 = (Ok root, w3) →
     makedirs root w3 = (Raise e, w4) →
     ∃ log', CreateForm_save self commit (w, log) = (Raise e, (w4, log')) ∧
             ∃ new, log' = log ++ new ++ [Call_makedirs root]) ∧
  (∀ o0 w1 o1 w2 root w3 w4 o2 w5 w6,
     ModelForm_save (form self) false w = (Ok o0, w1) →
     sync_copr_texts (prepared self o0) w1 = (Ok o1, w2) →
     get_repos_root o1 w2 = (Ok root, w3) →
     makedirs root w3 = (Ok tt, w4) →
     Model_save o1 w4 = (Ok o2, w5) →
     sync_copr_repos o2 w5 = (Raise e, w6) →
     ∃ log', CreateForm_save self commit (w, log) = (Raise e, (w6, log')) ∧
             ∃ new, log' = log ++ new ++ [Call_sync_copr_repos o2]).
Proof.
  repeat split.
  - intros self0 w1 w2 H0 H1. eexists. split.
    + by eapply UpdateForm_init_coprnames_raises.
    + by eexists.
  - intros o0 w1 w2 H0 H1. eexists. split.
    + by eapply CreateForm_save_sync_copr_texts_raises.
    + by eexists.
  - intros o0 w1 o1 w2 root w3 w4 H0 H1 H2 H3. eexists. split.
    + by eapply CreateForm_save_makedirs_raises.
    + by eexists [_; _; _].
  - intros o0 w1 o1 w2 root w3 w4 o2 w5 w6 H0 H1 H2 H3 H4 H5. eexists. split.
    + by eapply CreateForm_save_sync_copr_repos_raises.
    + by eexists [_; _; _; _; _].
Qed.


(** *** CreateForm.__init__ *)

(** When the superclass constructor raises, nothing else is called. *)
Lemma CreateForm_init_super_raises (req : Request) (kwargs : Kwargs) w log
    (e : exc) w1 :
  ModelForm_init CreateForm kwargs w = (Raise e, w1) →
  CreateForm_init req kwargs (w, log) =
    (Raise e, (w1, log ++ [Call_ModelForm_init])).
Proof.
  intros H0. unfold CreateForm_init.
  by rewrite (bind_fail _ _ _ _ _ (external_run _ _ _ _ _ _ H0)).
Qed.

(** The rest of [CreateForm.__init__], once the Copr names are known. *)
Lemma CreateForm_init_finish (req : Request) (self0 : ModelForm)
    (u : string) (names : list string) s :
  let self1 := set_initial (set_initial self0 "copr_username" (VStr u))
                           "maintainer" (VUser (user req)) in
  (let* f := lift (getitem (fields self1) "copr_name") in
   let self :=
     set_fields self1
       (<["copr_name" := set_choices f (copr_name_choices names)]> (fields self1)) in
   let* f := lift (getitem (fields self) "copr_name") in
   let self :=
     set_fields self
       (<["copr_name" := set_attr f "class" "form-control"]> (fields self)) in
   ret (mk_RequestForm req self)) s =
  match fields self0 !! "copr_name" with
  | Some f =>
      (Ok (mk_RequestForm req
             (set_fields self1
                (<["copr_name" :=
                     set_attr (set_choices f (copr_name_choices names))
                              "class" "form-control"]> (fields self0)))), s)
  | None => (Raise (KeyError "copr_name"), s)
  end.
Proof.
  intros self1. unfold bind, lift, ret, getitem. simpl.
  destruct (fields self0 !! "copr_name") as [f|]; [|done].
  rewrite lookup_insert_eq. unfold set_fields. simpl.
  by rewrite insert_insert_eq.
Qed.

(** C9: after the superclass constructor has returned, a constructor of
    [CreateForm] whose resolved Copr user name is empty makes no further
    call, so none to [coprnames], leaves the world as it is and sets the
    choices of [copr_name] to the empty tuple; with a non-empty name it
    calls [coprnames] once, with that name. *)
Theorem CreateForm_init_empty_copr_username (req : Request) (kwargs : Kwargs)
    w log self0 w1 (f : Field) :
  ModelForm_init CreateForm kwargs w = (Ok self0, w1) →
  fields self0 !! "copr_name" = Some f →
  (resolved_copr_username req w1 = "" →
   ∃ self,
     CreateForm_init req kwargs (w, log) =
       (Ok self, (w1, log ++ [Call_ModelForm_init])) ∧
     choices_of (form self) "copr_name" = []) ∧
  (resolved_copr_username req w1 ≠ "" →
   ∃ r w',
     CreateForm_init req kwargs (w, log) =
       (r, (w', log ++ [Call_ModelForm_init;
                        Call_coprnames (resolved_copr_username req w1)])) ∧
     ∃ rn, coprnames (resolved_copr_username req w1) w1 = (rn, w') ∧
       match rn with
       | Ok names =>
           ∃ self, r = Ok self ∧
             choices_of (form self) "copr_name" = copr_name_choices names
       | Raise e => r = Raise e
       end).
Proof.
  intros H0 Hf. unfold CreateForm_init.
  rewrite (bind_step _ _ _ _ _ (external_run _ _ _ _ _ _ H0)).
  rewrite (bind_step _ _ _ _ _ (resolve_copr_username_run req _)).
  cbv beta zeta. cbn [fst].
  set (u := resolved_copr_username req w1).
  split; intros Hu.
  - rewrite Hu. change (truthy (VStr "")) with false. cbv iota.
    rewrite (bind_step (ret []) _ _ [] _ eq_refl).
    rewrite (CreateForm_init_finish req self0 "" []). rewrite Hf.
    eexists. split; [reflexivity|].
    unfold choices_of. simpl. by rewrite lookup_insert_eq.
  - assert (truthy (VStr u) = true) as ->.
    { simpl. by destruct (String.eqb_spec u ""). }
    destruct (coprnames u w1) as [[names|e] w'] eqn:Hc.
    + rewrite (bind_step _ _ _ _ _ (external_run _ _ _ _ _ _ Hc)).
      rewrite (CreateForm_init_finish req self0 u names). rewrite Hf.
      eexists _, w'. rewrite <- app_assoc. split; [reflexivity|].
      exists (Ok names). split; [done|]. eexists. split; [reflexivity|].
      unfold choices_of. simpl. by rewrite lookup_insert_eq.
    + rewrite (bind_fail _ _ _ _ _ (external_run _ _ _ _ _ _ Hc)).
      eexists _, w'. rewrite <- app_assoc. split; [reflexivity|].
      by exists (Raise e).
Qed.


(** *** CollaboratorsForm.clean *)




(** What [clean] computes, once the superclass [clean] has given both
    fields: [cd1] is the cleaned data with the collaborators as a list and
    without [add]. *)
Lemma CollaboratorsForm_clean_run (self : ModelForm) w log
    (cd : gmap string value) w1 (c : value) (l : list value) (add : value) :
  ModelForm_clean self w = (Ok cd, w1) →
  cd !! "collaborators" = Some c →
  py_list c = Ok l →
  cd !! "add" = Some add →
  let m := VUser (maintainer (instance self)) in
  let cd1 := delete "add" (<["collaborators" := VList l]> cd) in
  let done_with (cd' : gmap string value) (errs : gmap string (list string)) :=
    (Ok (cd', mk_ModelForm (instance self) (initial self) (fields self) cd' errs),
     (w1, log ++ [Call_ModelForm_clean])) in
  CollaboratorsForm_clean self (w, log) =
    if truthy add then
      match User_objects_get add w1 with
      | Ok u => done_with (<["collaborators" := VList (l ++ [VUser u; m])]> cd1)
                          (errors self)
      | Raise _ => done_with (<["collaborators" := VList (l ++ [m])]> cd1)
                             (<["add" := ["Unknown user"]]> (errors self))
      end
    else done_with (<["collaborators" := VList (l ++ [m])]> cd1) (errors self).
Proof.
  intros Hclean Hc Hl Hadd m cd1 done_with. unfold CollaboratorsForm_clean.
  rewrite (bind_step _ _ _ _ _ (external_run _ _ _ _ _ _ Hclean)).
  cbv beta zeta. cbn [cleaned_data set_cleaned_data].
  unfold getitem at 1. rewrite Hc.
  rewrite (bind_step (lift (Ok c)) _ _ c _ eq_refl). rewrite Hl.
  rewrite (bind_step (lift (Ok l)) _ _ l _ eq_refl).
  unfold pop. rewrite lookup_insert_ne by done. rewrite Hadd.
  rewrite (bind_step (lift (Ok (add, cd1))) _ _ (add, cd1) _ eq_refl).
  cbn [fst snd instance set_cleaned_data cleaned_data].
  assert (cd1 !! "collaborators" = Some (VList l)) as Hcd1.
  { unfold cd1. rewrite lookup_delete_ne by done. apply lookup_insert_eq. }
  destruct (truthy add).
  - unfold try_except, bind, lift, query, ret, getitem.
    cbn beta iota zeta delta
      [fst snd instance cleaned_data set_cleaned_data set_error errors
       initial fields].
    rewrite Hcd1.
    destruct (User_objects_get add w1) as [u|e];
      cbn beta iota zeta delta
        [fst snd instance cleaned_data set_cleaned_data set_error errors
         initial fields append].
    + rewrite lookup_insert_eq. unfold append, set_cleaned_data.
      cbn [instance initial fields errors cleaned_data].
      unfold done_with. by rewrite insert_insert_eq, <- app_assoc.
    + rewrite Hcd1. unfold append, set_cleaned_data, set_error.
      by cbn [instance initial fields errors cleaned_data].
  - unfold bind, lift, ret, getitem.
    cbn beta iota zeta delta
      [fst snd instance cleaned_data set_cleaned_data set_error errors
       initial fields].
    rewrite Hcd1. unfold append, set_cleaned_data.
    by cbn [instance initial fields errors cleaned_data].
Qed.



(** [clean] returns only when the superclass [clean] has given both
    fields. *)
Lemma CollaboratorsForm_clean_Ok_inv (self : ModelForm) w log
    (cd' : gmap string value) (self' : ModelForm) s' :
  CollaboratorsForm_clean self (w, log) = (Ok (cd', self'), s') →
  ∃ cd w1 c l add,
    ModelForm_clean self w = (Ok cd, w1) ∧
    cd !! "collaborators" = Some c ∧
    py_list c = Ok l ∧
    cd !! "add" = Some add.
Proof.
  unfold CollaboratorsForm_clean. intros Hrun.
  apply bind_Ok in Hrun as (cd & [w1 l1] & H0 & Hrun).
  apply external_inv in H0 as [H0 ->].
  cbv beta zeta in Hrun. cbn [cleaned_data set_cleaned_data] in Hrun.
  apply bind_Ok in Hrun as (c & s1 & Hc & Hrun).
  apply lift_inv in Hc as [Hc ->]. unfold getitem in Hc.
  destruct (cd !! "collaborators") as [c0|] eqn:Hcoll; [|done].
  injection Hc as ->.
  apply bind_Ok in Hrun as (l & s2 & Hl & Hrun).
  apply lift_inv in Hl as [Hl ->].
  apply bind_Ok in Hrun as (p & s3 & Hp & _).
  apply lift_inv in Hp as [Hp ->]. unfold pop in Hp.
  rewrite lookup_insert_ne in Hp by done.
  destruct (cd !! "add") as [add|] eqn:Hadd; [|done].
  by exists cd, w1, c0, l, add.
Qed.

(** Every return of [clean] has the maintainer as the last collaborator. *)
Lemma CollaboratorsForm_clean_returns_maintainer (self : ModelForm) w log
    (cd' : gmap string value) (self' : ModelForm) s' :
  CollaboratorsForm_clean self (w, log) = (Ok (cd', self'), s') →
  ∃ l', cd' !! "collaborators" =
          Some (VList (l' ++ [VUser (maintainer (instance self))])).
Proof.
  intros Hrun.
  destruct (CollaboratorsForm_clean_Ok_inv _ _ _ _ _ _ Hrun)
    as (cd & w1 & c & l & add & Hclean & Hc & Hl & Hadd).
  pose proof (CollaboratorsForm_clean_run self w log cd w1 c l add
                Hclean Hc Hl Hadd) as Heq.
  cbv zeta in Heq. rewrite Heq in Hrun.
  destruct (truthy add); [destruct (User_objects_get add w1) as [u|e]|];
    injection Hrun as <- _ _.
  - exists (l ++ [VUser u]). by rewrite lookup_insert_eq, <- app_assoc.
  - exists l. by rewrite lookup_insert_eq.
  - exists l. by rewrite lookup_insert_eq.
Qed.

End Facts.

(** *** The statements on the sample world *)

Import Sample.

Lemma sample_sync_keeps_identity : keeps_identity sample_sync.
Proof.
  intros o w o' w'. unfold sample_sync.
  destruct (coprs w !! copr_username o); [|done].
  case_bool_decide; [|done]. by intros [= <- <-].
Qed.

Lemma sample_Model_save_keeps_identity : keeps_identity sample_Model_save.
Proof.
  intros o w o' w'. unfold sample_Model_save. intros [= <- <-].
  by destruct (scl_id o).
Qed.

Lemma CreateForm_save_slug_witness :
  ∃ obj s',
    CreateForm_save create_form true (world0, []) = (Ok obj, s') ∧
    maintainer obj = alice ∧
    slug obj = "alice/ruby193".
Proof.
  destruct (CreateForm_save create_form true (world0, [])) as [[obj|e] s'] eqn:Hrun;
    [|vm_compute in Hrun; discriminate Hrun].
  destruct (CreateForm_save_slug create_form true world0 [] obj s') as (Hm & Hs & _).
  - exact sample_sync_keeps_identity.
  - exact sample_Model_save_keeps_identity.
  - exact sample_sync_keeps_identity.
  - by intros o w o' w' [= <- <-].
  - by intros u o w o' w' [= <- <-].
  - exact Hrun.
  - exists obj, s'. split; [reflexivity|]. split; [exact Hm|].
    rewrite Hs. vm_compute in Hrun. by injection Hrun as <- <-.
Defined.

Lemma save_cascade_witness :
  (∃ obj w' o0 o1 o2 o3 o4,
     CreateForm_save create_form true (world0, []) =
       (Ok obj, (w', [Call_ModelForm_save false;
                      Call_sync_copr_texts (prepared create_form o0);
                      Call_get_repos_root o1;
                      Call_makedirs "/srv/repos/alice/ruby193";
                      Call_save o1;
                      Call_sync_copr_repos o2;
                      Call_add_auto_tags o3;
                      Call_collaborators_add o4 alice]))) ∧
  (∃ obj w' o0 o1 o2,
     UpdateForm_save update_form true (world0, []) =
       (Ok obj, (w', [Call_ModelForm_save true;
                      Call_set_tags o0 (VStr "ruby");
                      Call_sync_copr_repos o1;
                      Call_add_auto_tags o2]))).
Proof.
  split.
  - destruct (CreateForm_save create_form true (world0, []))
      as [[obj|e] [w' log']] eqn:Hrun; [|vm_compute in Hrun; discriminate Hrun].
    destruct (proj1 (proj1 (save_cascade create_form true world0 [] obj w' log')) Hrun)
      as (o0 & w1 & o1 & w2 & root & w3 & w4 & o2 & w5 & o3 & w6 & o4 & w7 &
          H0 & H1 & H2 & H3 & H4 & H5 & H6 & H7 & ->).
    vm_compute in H0. injection H0 as <- <-.
    vm_compute in H1. injection H1 as <- <-.
    vm_compute in H2. injection H2 as <- <-.
    vm_compute in H3. injection H3 as <-.
    vm_compute in H4. injection H4 as <- <-.
    vm_compute in H5. injection H5 as <- <-.
    vm_compute in H6. injection H6 as <- <-.
    eexists obj, w', _, _, _, _, _. reflexivity.
  - destruct (UpdateForm_save update_form true (world0, []))
      as [[obj|e] [w' log']] eqn:Hrun; [|vm_compute in Hrun; discriminate Hrun].
    destruct (proj1 (proj2 (save_cascade update_form true world0 [] obj w' log')) Hrun)
      as (o0 & w1 & tags & o1 & w2 & o2 & w3 & H0 & Ht & H1 & H2 & H3 & ->).
    vm_compute in Ht. injection Ht as <-.
    eexists obj, w', _, _, _. reflexivity.
Defined.



Lemma external_failures_propagate_witness :
  (∃ log', CreateForm_save create_form true (world_with_dir, []) =
             (Raise (OSError "File exists"), (world_with_dir, log'))) ∧
  (∃ log', UpdateForm_init request_unknown update_kwargs (world0, []) =
             (Raise (ExternalError "no such Copr user"), (world0, log'))).
Proof.
  split.
  - destruct (external_failures_propagate create_form true request_unknown
                update_kwargs world_with_dir [] (OSError "File exists"))
      as (_ & _ & Hmk & _).
    edestruct Hmk as (log' & Hrun & _);
      [reflexivity|reflexivity|reflexivity|reflexivity|].
    exists log'. exact Hrun.
  - destruct (external_failures_propagate create_form true request_unknown
                update_kwargs world0 [] (ExternalError "no such Copr user"))
      as (Hinit & _).
    edestruct Hinit as (log' & Hrun & _); [reflexivity|reflexivity|].
    exists log'. exact Hrun.
Defined.

Lemma CreateForm_init_empty_copr_username_witness :
  (∃ self, CreateForm_init request_empty no_kwargs (world0, []) =
             (Ok self, (world0, [Call_ModelForm_init])) ∧
           choices_of (form self) "copr_name" = []) ∧
  (∃ r w', CreateForm_init request0 no_kwargs (world0, []) =
             (r, (w', [Call_ModelForm_init; Call_coprnames "alice"]))).
Proof.
  destruct (sample_init CreateForm no_kwargs world0) as [[self0|e] w1] eqn:Hinit;
    [|vm_compute in Hinit; discriminate Hinit].
  assert (w1 = world0) as -> by (vm_compute in Hinit; by injection Hinit as _ <-).
  assert (∃ f, fields self0 !! "copr_name" = Some f) as [f Hf].
  { vm_compute in Hinit. injection Hinit as <-. by eexists. }
  split.
  - destruct (@CreateForm_init_empty_copr_username world sample_externals request_empty no_kwargs
                world0 [] self0 world0 f Hinit Hf) as [Hempty _].
    apply Hempty. reflexivity.
  - destruct (@CreateForm_init_empty_copr_username world sample_externals request0 no_kwargs
                world0 [] self0 world0 f Hinit Hf) as [_ Hfull].
    destruct Hfull as (r & w' & Hrun & _); [discriminate|].
    exists r, w'. exact Hrun.
Defined.



End FormFacts.

(** ** More on the migration *)

Module MigrationMore.
Import South Migration.

Lemma column_names_after_delete (name : string) (cols : list (string * field)) :
  name ∉ (filter (λ c : string * field, c.1 ≠ name) cols).*1.
Proof.
  intros Hin. apply list_elem_of_fmap in Hin as ([c f] & -> & Hc).
  apply list_elem_of_filter in Hc as [Hne _]. by apply Hne.
Qed.




(** Going back and forth loses the slugs: on a table that has the column,
    [backwards] and then [forwards] both succeed, the column is again the
    last one, and every row holds the empty string under [slug], whatever it
    held before; the other values are kept. *)
Theorem backwards_forwards_resets_slugs (db : database) (t : table) :
  db !! "scls_repo" = Some t →
  "slug" ∈ column_names t →
  ∃ db1 db2 t2,
    backwards db = Ok db1 ∧ forwards db1 = Ok db2 ∧
    db2 !! "scls_repo" = Some t2 ∧
    columns t2 =
      filter (λ c : string * field, c.1 ≠ "slug") (columns t) ++
      [("slug", mk_field "django.db.models.fields.SlugField" (Some 150) None)] ∧
    rows t2 = (λ r : gmap string string, <["slug" := ""]> r) <$> rows t.
Proof.
  intros Ht Hin. unfold backwards, delete_column. rewrite Ht.
  rewrite bool_decide_eq_true_2 by done.
  eexists _, _, _. split; [reflexivity|].
  unfold forwards, add_column. rewrite lookup_insert_eq.
  rewrite bool_decide_eq_false_2 by apply column_names_after_delete.
  split; [reflexivity|]. split; [apply lookup_insert_eq|]. simpl.
  split; [done|].
  rewrite <- list_fmap_compose. apply list_fmap_ext.
  intros i r _. simpl. apply insert_delete_eq.
Qed.




Lemma backwards_forwards_resets_slugs_witness :
  ∃ db1 db2 t2 r2,
    backwards Sample.migrated_db = Ok db1 ∧ forwards db1 = Ok db2 ∧
    db2 !! "scls_repo" = Some t2 ∧
    column_names t2 = ["id"; "name"; "slug"] ∧
    rows t2 = [r2] ∧ r2 !! "slug" = Some "".
Proof.
  destruct (backwards_forwards_resets_slugs Sample.migrated_db Sample.migrated_table)
    as (db1 & db2 & t2 & Hb & Hf & Ht2 & Hcols & Hrows).
  - reflexivity.
  - apply (bool_decide_unpack _). vm_compute. exact I.
  - eexists db1, db2, t2, _. split; [exact Hb|]. split; [exact Hf|].
    split; [exact Ht2|]. unfold column_names. rewrite Hcols, Hrows.
    split; [reflexivity|]. split; [reflexivity|]. reflexivity.
Defined.

End MigrationMore.

(** ** More on the form methods *)

Module FormMore.
Import Models Py FormData Env Run Forms FormFacts.

Section More.
Context {W : Type} `{Externals W}.

Implicit Types (s : W * list call) (w : W) (log : list call).

Ltac next_call :=
  match goal with
  | |- context [bind (external ?c ?f) ?k (?w, ?log)] =>
      let Hf := fresh "Hf" in
      destruct (f w) as [[?|?] ?] eqn:Hf;
      [rewrite (bind_step _ k _ _ _ (external_run c f w log _ _ Hf))
      |rewrite (bind_fail _ k _ _ _ (external_run c f w log _ _ Hf))];
      cbv beta zeta
  end.

Ltac all_calls := cbv beta zeta; repeat next_call; unfold ret.

Ltac absent H :=
  repeat (apply elem_of_cons in H as [H|H]; [discriminate H|]);
  by apply elem_of_nil in H.

(** *** CreateForm.save *)



(** *** UpdateForm.save *)

(** When the superclass save has returned but the cleaned data has no
    [tags], [UpdateForm.save] raises [KeyError('tags')]: the superclass save
    has been done, nothing else is called. *)
Theorem UpdateForm_save_missing_tags (self : RequestForm) (commit : bool)
    w log o0 w1 :
  ModelForm_save (form self) commit w = (Ok o0, w1) →
  cleaned_data (form self) !! "tags" = None →
  UpdateForm_save self commit (w, log) =
    (Raise (KeyError "tags"), (w1, log ++ [Call_ModelForm_save commit])).
Proof.
  intros H0 Ht. unfold UpdateForm_save.
  rewrite (bind_step _ _ _ _ _ (external_run _ _ _ _ _ _ H0)).
  unfold getitem. rewrite Ht. reflexivity.
Qed.

(** [UpdateForm.save] hands [commit] to the superclass save, which is its
    first call, and, however the run ends, never calls the superclass save a
    second time, the model's [save], or [os.makedirs]. *)
Theorem UpdateForm_save_leaves_saving_to_super (self : RequestForm)
    (commit : bool) w log (r : result SoftwareCollection) w' log' :
  UpdateForm_save self commit (w, log) = (r, (w', log')) →
  ∃ new, log' = log ++ Call_ModelForm_save commit :: new ∧
    (∀ c, Call_ModelForm_save c ∉ new) ∧
    (∀ o, Call_save o ∉ new) ∧
    (∀ p, Call_makedirs p ∉ new).
Proof.
  unfold UpdateForm_save. cbv beta zeta. next_call.
  - unfold getitem.
    destruct (cleaned_data (form self) !! "tags") as [tags|].
    + rewrite (bind_step (lift (Ok tags)) _ _ tags _ eq_refl). all_calls;
        intros [= <- <- <-]; eexists;
        (split; [rewrite <- ?app_assoc; simpl; reflexivity|]);
        repeat split; intros x Hx; absent Hx.
    + intros [= <- <- <-]. exists []. split; [done|].
      repeat split; intros x Hx; absent Hx.
  - intros [= <- <- <-]. exists []. split; [done|].
    repeat split; intros x Hx; absent Hx.
Qed.

(** *** CollaboratorsForm.save *)

(** A [CollaboratorsForm.save] returns exactly when the superclass save,
    with the [commit] it was given, and then [add_auto_tags] on the object
    both return; these are its two calls. *)
Theorem CollaboratorsForm_save_Ok (self : ModelForm) (commit : bool) w log
    (obj : SoftwareCollection) w' log' :
  CollaboratorsForm_save self commit (w, log) = (Ok obj, (w', log')) ↔
  ∃ o0 w1,
    ModelForm_save self commit w = (Ok o0, w1) ∧
    add_auto_tags o0 w1 = (Ok obj, w') ∧
    log' = log ++ [Call_ModelForm_save commit; Call_add_auto_tags o0].
Proof.
  unfold CollaboratorsForm_save. split.
  - intros Hrun.
    apply bind_Ok in Hrun as (o0 & [w1 l1] & H0 & Hrun).
    apply external_inv in H0 as [H0 ->].
    apply bind_Ok in Hrun as (o1 & [w2 l2] & H1 & Hrun).
    apply external_inv in H1 as [H1 ->].
    apply ret_inv in Hrun as [[= ->] [= -> ->]].
    exists o0, w1. by rewrite <- !app_assoc.
  - intros (o0 & w1 & H0 & H1 & ->).
    rewrite (bind_step _ _ _ _ _ (external_run _ _ _ _ _ _ H0)).
    rewrite (bind_step _ _ _ _ _ (external_run _ _ _ _ _ _ H1)).
    unfold ret. by rewrite <- !app_assoc.
Qed.


(** *** UpdateForm.__init__ *)

(** Unlike [CreateForm], the constructor of [UpdateForm] has no guard: once
    the superclass constructor has returned it calls [coprnames] with the
    Copr user name of the request, or else of the instance, also when that
    name is empty. *)
Theorem UpdateForm_init_always_looks_up (req : Request) (kwargs : Kwargs)
    w log self0 w1 (r : result RequestForm) w' log' :
  ModelForm_init UpdateForm kwargs w = (Ok self0, w1) →
  UpdateForm_init req kwargs (w, log) = (r, (w', log')) →
  ∃ rest,
    log' = log ++
      [Call_ModelForm_init;
       Call_coprnames (match REQUEST req !! "copr_username" with
                       | Some v => v
                       | None => copr_username (instance self0)
                       end)] ++ rest.
Proof.
  intros H0. unfold UpdateForm_init.
  rewrite (bind_step _ _ _ _ _ (external_run _ _ _ _ _ _ H0)).
  cbv beta zeta. next_call.
  - unfold getitem. destruct (fields self0 !! "copr_name") as [f|].
    + rewrite (bind_step (lift (Ok f)) _ _ f _ eq_refl). all_calls;
        intros [= <- <- <-]; eexists; rewrite <- ?app_assoc; simpl; reflexivity.
    + intros [= <- <- <-]. exists []. by rewrite <- app_assoc.
  - intros [= <- <- <-]. exists []. by rewrite <- app_assoc.
Qed.

(** What a constructor of [UpdateForm] builds when its calls return: the
    request is kept, the instance is the superclass's, the choices of
    [copr_name] are the pairs (name, name) of the Copr names, and the initial
    values of [tags] and [policy] are those of the instance, replacing what
    the superclass constructor had put there. *)
Theorem UpdateForm_init_returns (req : Request) (kwargs : Kwargs)
    w log self0 w1 (names : list string) w2 (f : Field) (tags : string) w3 :
  let u := match REQUEST req !! "copr_username" with
           | Some v => v
           | None => copr_username (instance self0)
           end in
  ModelForm_init UpdateForm kwargs w = (Ok self0, w1) →
  coprnames u w1 = (Ok names, w2) →
  fields self0 !! "copr_name" = Some f →
  tags_edit_string (instance self0) w2 = (Ok tags, w3) →
  ∃ self,
    UpdateForm_init req kwargs (w, log) =
      (Ok self, (w3, log ++ [Call_ModelForm_init; Call_coprnames u;
                             Call_tags_edit_string (instance self0)])) ∧
    request self = req ∧
    instance (form self) = instance self0 ∧
    choices_of (form self) "copr_name" = (λ n, (VStr n, n)) <$> names ∧
    initial (form self) !! "tags" = Some (VStr tags) ∧
    initial (form self) !! "policy" = Some (VStr (policy (instance self0))) ∧
    (∀ k, k ≠ "tags" → k ≠ "policy" →
          initial (form self) !! k = initial self0 !! k) ∧
    (∀ k, k ≠ "copr_name" → fields (form self) !! k = fields self0 !! k).
Proof.
  intros u H0 H1 Hf H2. unfold UpdateForm_init.
  rewrite (bind_step _ _ _ _ _ (external_run _ _ _ _ _ _ H0)).
  cbv beta zeta. fold u.
  rewrite (bind_step _ _ _ _ _ (external_run _ _ _ _ _ _ H1)).
  unfold getitem. rewrite Hf.
  rewrite (bind_step (lift (Ok f)) _ _ f _ eq_refl).
  cbn [instance set_fields].
  rewrite (bind_step _ _ _ _ _ (external_run _ _ _ _ _ _ H2)).
  eexists. unfold ret. rewrite <- !app_assoc. split; [reflexivity|].
  unfold choices_of, copr_name_choices. simpl.
  split; [done|]. split; [done|].
  split; [by rewrite lookup_insert_eq|].
  split; [by rewrite lookup_insert_ne, lookup_insert_eq|].
  split; [by rewrite lookup_insert_eq|].
  split.
  - intros k Ht Hp. by rewrite !lookup_insert_ne.
  - intros k Hk. by rewrite lookup_insert_ne.
Qed.

(** *** CreateForm.__init__ *)

Lemma insert_by_id_desc_elem (o x : SoftwareCollection)
    (l : list SoftwareCollection) :
  x ∈ insert_by_id_desc o l ↔ x = o ∨ x ∈ l.
Proof.
  induction l as [|y l IH]; simpl.
  - rewrite list_elem_of_singleton. split; [by left|].
    intros [->|Hx]; [done|by apply elem_of_nil in Hx].
  - destruct (Z.leb (id_key y) (id_key o)).
    + by rewrite elem_of_cons.
    + rewrite !elem_of_cons, IH. naive_solver.
Qed.

Lemma order_by_id_desc_elem (x : SoftwareCollection)
    (l : list SoftwareCollection) :
  x ∈ order_by_id_desc l ↔ x ∈ l.
Proof.
  unfold order_by_id_desc. induction l as [|y l IH]; simpl; [done|].
  rewrite insert_by_id_desc_elem, elem_of_cons, IH. done.
Qed.

Lemma insert_by_id_desc_first (o : SoftwareCollection)
    (l : list SoftwareCollection) :
  first_is_highest l → first_is_highest (insert_by_id_desc o l).
Proof.
  destruct l as [|x l]; simpl.
  - intros _ y Hy. apply list_elem_of_singleton in Hy as ->. lia.
  - intros Hx. destruct (Z.leb (id_key x) (id_key o)) eqn:Hle; simpl.
    + apply Z.leb_le in Hle. intros y Hy.
      apply elem_of_cons in Hy as [->|Hy]; [lia|].
      specialize (Hx y Hy). lia.
    + apply Z.leb_gt in Hle. intros y Hy.
      apply elem_of_cons in Hy as [->|Hy]; [lia|].
      apply insert_by_id_desc_elem in Hy as [->|Hy]; [lia|].
      apply Hx. by right.
Qed.

Lemma order_by_id_desc_first (l : list SoftwareCollection) :
  first_is_highest (order_by_id_desc l).
Proof.
  unfold order_by_id_desc. induction l as [|x l IH]; simpl; [done|].
  by apply insert_by_id_desc_first.
Qed.


(** The Copr user name a [CreateForm] starts from.  The lookup never raises
    and changes nothing.  A [copr_username] of the request wins; without
    one, it is the Copr user name of the collection with the highest id
    among those the user maintains; when the user maintains none, it is the
    user's own name. *)
Theorem resolve_copr_username_precedence (req : Request) s :
  ∃ x, resolve_copr_username req s = (Ok x, s) ∧
    match REQUEST req !! "copr_username" with
    | Some v => x = v
    | None =>
        (∃ o, o ∈ SoftwareCollection_objects s.1 ∧
              User_eqb (maintainer o) (user req) = true ∧
              (∀ o', o' ∈ SoftwareCollection_objects s.1 →
                     User_eqb (maintainer o') (user req) = true →
                     id_key o' ≤ id_key o) ∧
              x = copr_username o) ∨
        ((∀ o', o' ∈ SoftwareCollection_objects s.1 →
                User_eqb (maintainer o') (user req) = false) ∧
         x = username (user req))
    end.
Proof.
  unfold resolve_copr_username.
  destruct (REQUEST req !! "copr_username") as [v|]; [by exists v|].
  unfold try_except, bind, query, ret, latest_maintained_by.
  set (mine := filter (λ o, User_eqb (maintainer o) (user req) = true)
                      (SoftwareCollection_objects s.1)).
  pose proof (order_by_id_desc_first mine) as Hfirst.
  pose proof (λ x, order_by_id_desc_elem x mine) as Helem.
  destruct (order_by_id_desc mine) as [|o rest].
  - exists (username (user req)). split; [done|]. right. split; [|done].
    intros o' Ho'. destruct (User_eqb (maintainer o') (user req)) eqn:Hm; [|done].
    assert (o' ∈ mine) as Hin by (by apply list_elem_of_filter).
    apply Helem in Hin. by apply elem_of_nil in Hin.
  - exists (copr_username o). split; [done|]. left. exists o.
    assert (o ∈ mine) as Ho by (apply Helem; by left).
    apply list_elem_of_filter in Ho as [Hm Ho].
    split; [done|]. split; [done|]. split; [|done].
    intros o' Ho' Hm'. apply Hfirst. apply Helem. by apply list_elem_of_filter.
Qed.

(** What a constructor of [CreateForm] has built when it returns: the
    request is kept, the instance is the superclass's, the initial
    [maintainer] is the user of the request and the initial [copr_username]
    the resolved name, both replacing what the superclass constructor had
    put there, and the widget of [copr_name] has the class [form-control];
    the other initial values and fields are the superclass's. *)
Theorem CreateForm_init_returns (req : Request) (kwargs : Kwargs) w log
    (self : RequestForm) s' :
  CreateForm_init req kwargs (w, log) = (Ok self, s') →
  ∃ self0 w1,
    ModelForm_init CreateForm kwargs w = (Ok self0, w1) ∧
    request self = req ∧
    instance (form self) = instance self0 ∧
    initial (form self) !! "maintainer" = Some (VUser (user req)) ∧
    initial (form self) !! "copr_username" =
      Some (VStr (resolved_copr_username req w1)) ∧
    (∀ k, k ≠ "maintainer" → k ≠ "copr_username" →
          initial (form self) !! k = initial self0 !! k) ∧
    (∃ f, fields (form self) !! "copr_name" = Some f ∧
          widget_attrs f !! "class" = Some "form-control") ∧
    (∀ k, k ≠ "copr_name" → fields (form self) !! k = fields self0 !! k).
Proof.
  unfold CreateForm_init. intros Hrun.
  apply bind_Ok in Hrun as (self0 & [w1 l1] & H0 & Hrun).
  apply external_inv in H0 as [H0 ->].
  rewrite (bind_step _ _ _ _ _ (resolve_copr_username_run req _)) in Hrun.
  cbv beta zeta in Hrun. cbn [fst] in Hrun.
  apply bind_Ok in Hrun as (names & s2 & _ & Hrun).
  rewrite (CreateForm_init_finish req self0 _ names) in Hrun.
  destruct (fields self0 !! "copr_name") as [f|]; [|done].
  injection Hrun as <- _. exists self0, w1. simpl.
  split; [done|]. split; [done|]. split; [done|].
  split; [by rewrite lookup_insert_eq|].
  split; [by rewrite lookup_insert_ne, lookup_insert_eq|].
  split; [intros k Hm Hc; by rewrite !lookup_insert_ne|].
  split.
  - eexists. rewrite lookup_insert_eq. split; [done|]. simpl.
    by rewrite lookup_insert_eq.
  - intros k Hk. by rewrite lookup_insert_ne.
Qed.

(** *** CollaboratorsForm *)


(** With an empty [add], [clean] looks up no user: whatever the users are,
    it returns, the errors are unchanged, [add] is removed and the
    collaborators are the submitted ones and then the maintainer. *)
Theorem CollaboratorsForm_clean_empty_add (self : ModelForm) w log
    (cd : gmap string value) w1 (c add : value) (l : list value) :
  ModelForm_clean self w = (Ok cd, w1) →
  cd !! "collaborators" = Some c →
  py_list c = Ok l →
  cd !! "add" = Some add →
  truthy add = false →
  ∃ cd' self',
    CollaboratorsForm_clean self (w, log) =
      (Ok (cd', self'), (w1, log ++ [Call_ModelForm_clean])) ∧
    errors self' = errors self ∧
    cd' !! "add" = None ∧
    cd' !! "collaborators" =
      Some (VList (l ++ [VUser (maintainer (instance self))])).
Proof.
  intros Hclean Hc Hl Hadd Ht.
  pose proof (CollaboratorsForm_clean_run self w log cd w1 c l add
                Hclean Hc Hl Hadd) as Hrun.
  cbv zeta in Hrun. rewrite Ht in Hrun.
  eexists _, _. split; [exact Hrun|]. simpl. split; [done|].
  split; [|by rewrite lookup_insert_eq].
  rewrite lookup_insert_ne by done. apply lookup_delete_eq.
Qed.

(** What [clean] leaves alone: when it returns, every cleaned value other
    than [collaborators] and [add] is the one the superclass [clean] gave,
    [add] is gone, every error other than the one under ['add'] is as
    before, and instance, initial values and fields of the form are
    unchanged. *)
Theorem CollaboratorsForm_clean_frame (self : ModelForm) w log
    (cd' : gmap string value) (self' : ModelForm) s' :
  CollaboratorsForm_clean self (w, log) = (Ok (cd', self'), s') →
  ∃ cd w1,
    ModelForm_clean self w = (Ok cd, w1) ∧
    s' = (w1, log ++ [Call_ModelForm_clean]) ∧
    cleaned_data self' = cd' ∧
    cd' !! "add" = None ∧
    (∀ k, k ≠ "collaborators" → k ≠ "add" → cd' !! k = cd !! k) ∧
    (∀ k, k ≠ "add" → errors self' !! k = errors self !! k) ∧
    instance self' = instance self ∧
    initial self' = initial self ∧
    fields self' = fields self.
Proof.
  intros Hrun.
  destruct (CollaboratorsForm_clean_Ok_inv _ _ _ _ _ _ Hrun)
    as (cd & w1 & c & l & add & Hclean & Hc & Hl & Hadd).
  pose proof (CollaboratorsForm_clean_run self w log cd w1 c l add
                Hclean Hc Hl Hadd) as Heq.
  cbv zeta in Heq. rewrite Heq in Hrun. exists cd, w1. split; [done|].
  destruct (truthy add); [destruct (User_objects_get add w1) as [u|e]|];
    injection Hrun as <- <- <-; simpl;
    (split; [done|]); (split; [done|]);
    (split; [rewrite lookup_insert_ne by done; apply lookup_delete_eq|]);
    (split; [intros k Hk1 Hk2;
             by rewrite lookup_insert_ne, lookup_delete_ne, lookup_insert_ne|]);
    (split; [intros k Hk; by rewrite ?lookup_insert_ne|]); done.
Qed.

(** A missing field is not handled: without [collaborators] in what the
    superclass [clean] gives, [clean] raises [KeyError('collaborators')];
    with it but without [add], it raises [KeyError('add')]. *)
Theorem CollaboratorsForm_clean_missing_field (self : ModelForm) w log
    (cd : gmap string value) w1 :
  ModelForm_clean self w = (Ok cd, w1) →
  (cd !! "collaborators" = None →
   CollaboratorsForm_clean self (w, log) =
     (Raise (KeyError "collaborators"), (w1, log ++ [Call_ModelForm_clean]))) ∧
  (∀ c l, cd !! "collaborators" = Some c → py_list c = Ok l →
          cd !! "add" = None →
   CollaboratorsForm_clean self (w, log) =
     (Raise (KeyError "add"), (w1, log ++ [Call_ModelForm_clean]))).
Proof.
  intros Hclean. split.
  - intros Hc. unfold CollaboratorsForm_clean.
    rewrite (bind_step _ _ _ _ _ (external_run _ _ _ _ _ _ Hclean)).
    cbv beta zeta. cbn [cleaned_data set_cleaned_data].
    unfold getitem at 1. by rewrite Hc.
  - intros c l Hc Hl Hadd. unfold CollaboratorsForm_clean.
    rewrite (bind_step _ _ _ _ _ (external_run _ _ _ _ _ _ Hclean)).
    cbv beta zeta. cbn [cleaned_data set_cleaned_data].
    unfold getitem at 1. rewrite Hc.
    rewrite (bind_step (lift (Ok c)) _ _ c _ eq_refl). rewrite Hl.
    rewrite (bind_step (lift (Ok l)) _ _ l _ eq_refl).
    unfold pop. rewrite lookup_insert_ne by done. by rewrite Hadd.
Qed.

(** The bare [except] hides why the lookup failed: with a non-empty [add],
    the user is appended exactly when one user has that name; when none or
    several have it, the error ['Unknown user'] is recorded and only the
    maintainer is appended. *)
Theorem CollaboratorsForm_clean_one_match (self : ModelForm) w log
    (cd : gmap string value) w1 (l : list value) (a : string) :
  ModelForm_clean self w = (Ok cd, w1) →
  cd !! "collaborators" = Some (VList l) →
  cd !! "add" = Some (VStr a) →
  a ≠ "" →
  let found := filter (λ u, username u = a) (User_objects w1) in
  let m := VUser (maintainer (instance self)) in
  ∃ cd' self',
    CollaboratorsForm_clean self (w, log) =
      (Ok (cd', self'), (w1, log ++ [Call_ModelForm_clean])) ∧
    (∀ u, found = [u] →
       errors self' = errors self ∧
       cd' !! "collaborators" = Some (VList (l ++ [VUser u; m]))) ∧
    (List.length found ≠ 1%nat →
       errors self' = <["add" := ["Unknown user"]]> (errors self) ∧
       cd' !! "collaborators" = Some (VList (l ++ [m]))).
Proof.
  intros Hclean Hc Hadd Ha found m.
  pose proof (CollaboratorsForm_clean_run self w log cd w1 _ l _
                Hclean Hc eq_refl Hadd) as Hrun.
  cbv zeta in Hrun.
  assert (truthy (VStr a) = true) as Ht.
  { simpl. by destruct (String.eqb_spec a ""). }
  rewrite Ht in Hrun. unfold User_objects_get in Hrun. fold found in Hrun.
  destruct found as [|u [|u' rest]]; eexists _, _; (split; [exact Hrun|]); simpl.
  - split; [done|]. intros _. by rewrite lookup_insert_eq.
  - split; [|done]. intros ? [= <-]. by rewrite lookup_insert_eq.
  - split; [done|]. intros _. by rewrite lookup_insert_eq.
Qed.

End More.

(** *** PolicyRadioRenderer.render *)

Lemma append_assoc (a b c : string) : (a +:+ b) +:+ c = a +:+ (b +:+ c).
Proof.
  induction a as [|x a IH]; [reflexivity|].
  change (String x ((a +:+ b) +:+ c) = String x (a +:+ b +:+ c)).
  by rewrite IH.
Qed.

Lemma append_empty_r (a : string) : a +:+ "" = a.
Proof.
  induction a as [|x a IH]; [reflexivity|].
  change (String x (a +:+ "") = String x a). by rewrite IH.
Qed.

Lemma join_cons (sep x : string) (l : list string) :
  l ≠ [] → join sep (x :: l) = x +:+ sep +:+ join sep l.
Proof. by destruct l. Qed.

Lemma join_app (sep : string) (l1 l2 : list string) :
  l1 ≠ [] → l2 ≠ [] →
  join sep (l1 ++ l2) = join sep l1 +:+ sep +:+ join sep l2.
Proof.
  intros H1 H2. induction l1 as [|x l1 IH]; [done|].
  destruct l1 as [|y l1].
  - change ([x] ++ l2) with (x :: l2). by rewrite join_cons.
  - change ((x :: y :: l1) ++ l2) with (x :: ((y :: l1) ++ l2)).
    rewrite join_cons by done. rewrite IH by done.
    rewrite (join_cons sep x (y :: l1)) by done.
    by rewrite !append_assoc.
Qed.

(** The rendered table: without choices it is the header directly followed
    by the footer; otherwise every choice gives one row holding its tag and
    its label, the rows stand between header and footer in the order of the
    choices, and consecutive rows are separated by one line feed. *)
Theorem PolicyRadioRenderer_render_rows :
  PolicyRadioRenderer_render [] = render_header +:+ render_footer ∧
  ∀ (ws1 ws2 : list RadioInput) (w : RadioInput),
    let rows := λ ws, (λ w, render_row (tag w) (choice_label w)) <$> ws in
    PolicyRadioRenderer_render (ws1 ++ w :: ws2) =
      render_header +:+
      (match ws1 with [] => "" | _ => join nl (rows ws1) +:+ nl end) +:+
      render_row (tag w) (choice_label w) +:+
      (match ws2 with [] => "" | _ => nl +:+ join nl (rows ws2) end) +:+
      render_footer.
Proof.
  split; [reflexivity|]. intros ws1 ws2 w rows.
  unfold PolicyRadioRenderer_render. f_equal.
  rewrite fmap_app, fmap_cons. fold (rows ws1). fold (rows ws2).
  set (row := render_row (tag w) (choice_label w)).
  assert (join nl (row :: rows ws2) =
          row +:+ match ws2 with [] => "" | _ => nl +:+ join nl (rows ws2) end)
    as Htail.
  { destruct ws2 as [|w2 ws2]; [by rewrite append_empty_r|].
    by rewrite join_cons. }
  destruct ws1 as [|w1 ws1].
  - change (rows [] ++ row :: rows ws2) with (row :: rows ws2).
    rewrite Htail. by rewrite append_assoc.
  - rewrite join_app by done. rewrite Htail. by rewrite !append_assoc.
Qed.

(** *** The statements on the sample world *)

Import Sample.



Lemma UpdateForm_save_missing_tags_witness :
  ∃ w1, UpdateForm_save update_form_no_tags true (world0, []) =
          (Raise (KeyError "tags"), (w1, [Call_ModelForm_save true])) ∧
        scls w1 = [saved_scl].
Proof.
  eexists. split.
  - eapply (UpdateForm_save_missing_tags update_form_no_tags true world0 []);
      reflexivity.
  - reflexivity.
Defined.

Lemma UpdateForm_save_leaves_saving_to_super_witness :
  ∃ obj w' new,
    UpdateForm_save update_form false (world0, []) =
      (Ok obj, (w', Call_ModelForm_save false :: new)) ∧
    ∀ o, Call_save o ∉ new.
Proof.
  destruct (UpdateForm_save update_form false (world0, []))
    as [[obj|e] [w' log']] eqn:Hrun; [|vm_compute in Hrun; discriminate Hrun].
  destruct (UpdateForm_save_leaves_saving_to_super update_form false world0 []
              _ w' log' Hrun) as (new & -> & _ & Hsave & _).
  by exists obj, w', new.
Defined.

Lemma CollaboratorsForm_save_Ok_witness :
  ∃ obj w' o0,
    CollaboratorsForm_save (collaborators_form "") false (world0, []) =
      (Ok obj, (w', [Call_ModelForm_save false; Call_add_auto_tags o0])).
Proof.
  eexists _, _, _.
  apply (CollaboratorsForm_save_Ok (collaborators_form "") false world0 []).
  eexists _, _. split; [reflexivity|]. split; reflexivity.
Defined.

Lemma UpdateForm_init_always_looks_up_witness :
  ∃ r w' rest,
    UpdateForm_init request_empty update_kwargs (world0, []) =
      (r, (w', [Call_ModelForm_init; Call_coprnames ""] ++ rest)).
Proof.
  destruct (UpdateForm_init request_empty update_kwargs (world0, []))
    as [r [w' log']] eqn:Hrun.
  edestruct (UpdateForm_init_always_looks_up request_empty update_kwargs
               world0 []) as (rest & ->); [reflexivity|exact Hrun|].
  by exists r, w', rest.
Defined.

Lemma UpdateForm_init_returns_witness :
  ∃ self,
    UpdateForm_init request0 update_kwargs (world0, []) =
      (Ok self, (world0, [Call_ModelForm_init; Call_coprnames "alice";
                          Call_tags_edit_string saved_scl])) ∧
    choices_of (form self) "copr_name" =
      [(VStr "ruby193", "ruby193"); (VStr "python33", "python33")] ∧
    initial (form self) !! "policy" = Some (VStr "GPL").
Proof.
  edestruct (UpdateForm_init_returns request0 update_kwargs world0 [])
    as (self & Hrun & _ & _ & Hchoices & _ & Hpolicy & _);
    [reflexivity|reflexivity|reflexivity|reflexivity|].
  exists self. split; [exact Hrun|]. split; [exact Hchoices|exact Hpolicy].
Defined.

Lemma CreateForm_init_returns_witness :
  ∃ self s',
    CreateForm_init request0 no_kwargs (world_with_scls, []) = (Ok self, s') ∧
    initial (form self) !! "maintainer" = Some (VUser alice) ∧
    initial (form self) !! "copr_username" = Some (VStr "alice-team").
Proof.
  destruct (CreateForm_init request0 no_kwargs (world_with_scls, []))
    as [[self|e] s'] eqn:Hrun.
  - destruct (CreateForm_init_returns request0 no_kwargs world_with_scls []
                self s' Hrun)
      as (self0 & w1 & Hinit & _ & _ & Hm & Hu & _).
    exists self, s'. split; [reflexivity|]. split; [exact Hm|].
    rewrite Hu. vm_compute in Hinit. by injection Hinit as _ <-.
  - vm_compute in Hrun. discriminate Hrun.
Defined.


Lemma CollaboratorsForm_clean_empty_add_witness :
  ∃ cd' self',
    CollaboratorsForm_clean (collaborators_form "") (world0, []) =
      (Ok (cd', self'), (world0, [Call_ModelForm_clean])) ∧
    errors self' = ∅ ∧
    cd' !! "collaborators" = Some (VList [VUser alice]).
Proof.
  edestruct (CollaboratorsForm_clean_empty_add (collaborators_form "") world0 [])
    as (cd' & self' & Hrun & Herr & _ & Hcoll);
    [reflexivity|reflexivity|reflexivity|reflexivity|reflexivity|].
  exists cd', self'. split; [exact Hrun|]. split; [exact Herr|exact Hcoll].
Defined.

Lemma CollaboratorsForm_clean_frame_witness :
  ∃ cd' self' s',
    CollaboratorsForm_clean (collaborators_form "bob") (world0, []) =
      (Ok (cd', self'), s') ∧
    cd' !! "add" = None ∧ instance self' = saved_scl.
Proof.
  destruct (CollaboratorsForm_clean (collaborators_form "bob") (world0, []))
    as [[[cd' self']|e] s'] eqn:Hrun; [|vm_compute in Hrun; discriminate Hrun].
  destruct (CollaboratorsForm_clean_frame (collaborators_form "bob") world0 []
              cd' self' s' Hrun)
    as (cd & w1 & _ & _ & _ & Hadd & _ & _ & Hinst & _).
  exists cd', self', s'. split; [reflexivity|]. split; [exact Hadd|exact Hinst].
Defined.

Lemma CollaboratorsForm_clean_missing_field_witness :
  CollaboratorsForm_clean collaborators_form_invalid (world0, []) =
    (Raise (KeyError "collaborators"), (world0, [Call_ModelForm_clean])).
Proof.
  destruct (CollaboratorsForm_clean_missing_field collaborators_form_invalid
              world0 [] (cleaned_data collaborators_form_invalid) world0)
    as [Hmissing _]; [reflexivity|].
  apply Hmissing. reflexivity.
Defined.

Lemma CollaboratorsForm_clean_one_match_witness :
  ∃ cd' self',
    CollaboratorsForm_clean (collaborators_form "bob") (world_two_bobs, []) =
      (Ok (cd', self'), (world_two_bobs, [Call_ModelForm_clean])) ∧
    errors self' = {["add" := ["Unknown user"]]} ∧
    cd' !! "collaborators" = Some (VList [VUser alice]).
Proof.
  edestruct (CollaboratorsForm_clean_one_match (collaborators_form "bob")
               world_two_bobs [])
    as (cd' & self' & Hrun & _ & Hmany);
    [reflexivity|reflexivity|reflexivity|discriminate|].
  destruct Hmany as [Herr Hcoll]; [vm_compute; discriminate|].
  exists cd', self'. split; [exact Hrun|]. split; [exact Herr|exact Hcoll].
Defined.

End FormMore.
